(** * Tracki: offline-first sale capture and synchronisation

    A shallow embedding of the tax calculator ([utils/taxCalculator.js]),
    the offline queue service ([services/offlineService.js]), the sale
    writer of [services/firestoreService.js] and the capture handler of
    [pages/RecordSale.jsx], with the properties of the capture and
    synchronisation engine proved about them.

    Conventions of the embedding.
    - A JavaScript [Number] is a rational [Q]: arithmetic is exact, where
      the code computes in IEEE binary64.  Module [Binary64] runs the tax
      calculator on binary64 values for the concrete sales quoted below,
      and on one sale where the two part.
    - A JavaScript string is the sequence of its code units, each below
      256 (the Latin-1 range).
    - An [async] function is a state transformer that either resolves with a
      value or rejects with an error; the state it leaves behind is kept in
      both cases (a rejected promise does not undo earlier writes).
    - The IndexedDB object store [pendingSales] is the list of its records,
      keyed by the field [id] and read by key only; every request made to
      the storage engine is appended to a trace, and an oracle [fault] says
      which requests the engine answers with an error event.
    - IndexedDB takes numbers, dates, strings, binary data and arrays of
      those as keys.  The service indexes the boolean field [synced] and
      queries that index with [false] and [true]: a record is in an index
      only when its value at the key path is a valid key, and a query that
      is not a valid key raises [DataError] in the call itself. *)

From Stdlib Require Import List String Ascii ZArith QArith Qround Lia Bool Arith.
From Stdlib Require Import PrimFloat SpecFloat FloatOps Uint63.
From Stdlib Require Import Lqa Permutation Sorted.
Import ListNotations.

Local Open Scope Q_scope.

(* ================================================================== *)
(** * Tax calculator                                                   *)
(* ================================================================== *)

Module TaxCalculator.

(** [Number.prototype.toFixed(2)] picks the integer [n] for which
    [n / 100 - x] is closest to zero, the larger [n] on a tie; a negative
    [x] is negated first and the sign put back.  [toFixed2 x] is that
    signed [n]: the digits [x.toFixed(2)] prints, read as hundredths. *)
Definition nearest_hundredth (x : Q) : Z := Qfloor (x * 100 + (1 # 2)).

Definition toFixed2 (x : Q) : Z :=
  if Qle_bool 0 x then nearest_hundredth x else (- nearest_hundredth (- x))%Z.

(** [parseFloat(x.toFixed(2))]. *)
Definition round2 (x : Q) : Q := toFixed2 x # 100.

Record TaxResult := mkTaxResult {
  subtotal : Q;
  vatAmount : Q;
  total : Q
}.

Definition DEFAULT_VAT_RATE : Q := 18 # 100.

(** [calculateTax(subtotal, vatRate = 0.18)]: an absent second argument is
    [None]. *)
Definition calculateTax (subtotal : Q) (vatRate : option Q) : TaxResult :=
  let vatRate := match vatRate with Some r => r | None => DEFAULT_VAT_RATE end in
  let vatAmount := subtotal * vatRate in
  let total := subtotal + vatAmount in
  {| subtotal := round2 subtotal;
     vatAmount := round2 vatAmount;
     total := round2 total |}.

(** How a call completes.  The body of [calculateTax] has no [throw], and
    [toFixed(2)] and [parseFloat] do not throw on a [Number], so a call on
    numbers always returns. *)
Inductive completion (A : Type) : Type :=
| Returns (a : A)
| Throws (condition : string).
Arguments Returns {A} a.
Arguments Throws {A} condition.

Definition calculateTax_call (subtotal : Q) (vatRate : option Q)
  : completion TaxResult :=
  Returns (calculateTax subtotal vatRate).

(** A number of whole hundredths (an amount with at most two decimals). *)
Definition whole_hundredths (x : Q) : Prop := exists n : Z, x == n # 100.

End TaxCalculator.

Import TaxCalculator.

(* ================================================================== *)
(** * The tax calculator on binary64 values                            *)
(* ================================================================== *)

Module Binary64.

(** The rational a finite binary64 value denotes; [None] for NaN and the
    infinities. *)
Definition exact_value (x : float) : option Q :=
  match Prim2SF x with
  | S754_zero _ => Some 0
  | S754_finite s m e =>
      Some ((if s then - (1) else 1) * inject_Z (Zpos m) * Qpower 2 e)
  | _ => None
  end.

(** [parseFloat] of the digits of [n] hundredths: the binary64 value
    nearest to [n / 100], which is the correctly rounded quotient of the
    two integers. *)
Definition of_hundredths (n : Z) : float :=
  let magnitude := PrimFloat.of_uint63 (Uint63.of_Z (Z.abs n)) in
  PrimFloat.div (if (n <? 0)%Z then PrimFloat.opp magnitude else magnitude)
                (PrimFloat.of_uint63 100%uint63).

(** [parseFloat(x.toFixed(2))]: [toFixed] works on the exact value of [x]. *)
Definition round2 (x : float) : option float :=
  match exact_value x with
  | Some q => Some (of_hundredths (toFixed2 q))
  | None => None
  end.

(** [calculateTax] with the arithmetic of binary64. *)
Definition calculateTax (subtotal vatRate : float)
  : option float * option float * option float :=
  let vatAmount := PrimFloat.mul subtotal vatRate in
  let total := PrimFloat.add subtotal vatAmount in
  (round2 subtotal, round2 vatAmount, round2 total).

(** The literals 0.18, 100, 1.00390625 = 257/256, 0.5 and 0.2 as binary64
    values. *)
Definition f_0_18 : float := of_hundredths 18.
Definition f_100 : float := of_hundredths 10000.
Definition f_257_256 : float :=
  PrimFloat.div (PrimFloat.of_uint63 257%uint63) (PrimFloat.of_uint63 256%uint63).
Definition f_0_5 : float := of_hundredths 50.
Definition f_0_2 : float := of_hundredths 20.

End Binary64.

(* ================================================================== *)
(** * Data model                                                       *)
(* ================================================================== *)

Local Open Scope string_scope.
Local Open Scope list_scope.

Record SaleItem := mkSaleItem {
  productId : string;
  productName : string;
  quantity : Z;
  pricePerItem : Q
}.

(** The object the capture handler builds and the synchroniser hands to the
    submit callback: [{businessId, recordedByUserId, items, paymentMethod,
    subtotal, vatAmount, total}]. *)
Module Sale.
Record t := mk {
  businessId : string;
  recordedByUserId : string;
  items : list SaleItem;
  paymentMethod : string;
  subtotal : Q;
  vatAmount : Q;
  total : Q
}.
End Sale.

(** A record of the object store [pendingSales]:
    [{...saleData, id, synced, createdAt, storedAt}]. *)
Record PendingSale := mkPendingSale {
  sale : Sale.t;
  id : string;
  synced : bool;
  createdAt : string;
  storedAt : Z
}.

(** [{ synced, failed }], the value [syncPendingSales] resolves with. *)
Record Tally := mkTally {
  tally_synced : nat;
  tally_failed : nat
}.

(* ================================================================== *)
(** * Asynchronous computations                                        *)
(* ================================================================== *)

Inductive Error :=
| Failed_to_open_IndexedDB
| Failed_to_get_pending_sales
| Failed_to_get_sale
| Failed_to_mark_sale_as_synced
| Failed_to_get_synced_sales
| Delete_request_failed
| Data_error
| Business_not_found
| Backend_unavailable
| Callback_error (message : string).

Inductive outcome (A : Type) : Type :=
| Resolved (a : A)
| Rejected (e : Error).
Arguments Resolved {A} a.
Arguments Rejected {A} e.

(** An [async] function over a state [S]. *)
Definition Async (S A : Type) : Type := S -> outcome A * S.

Definition ret {S A} (a : A) : Async S A := fun s => (Resolved a, s).

Definition throw {S A} (e : Error) : Async S A := fun s => (Rejected e, s).

Definition bind {S A B} (m : Async S A) (k : A -> Async S B) : Async S B :=
  fun s =>
    match m s with
    | (Resolved a, s') => k a s'
    | (Rejected e, s') => (Rejected e, s')
    end.

(** [try { m } catch (error) { h error }]. *)
Definition try_catch {S A} (m : Async S A) (h : Error -> Async S A) : Async S A :=
  fun s =>
    match m s with
    | (Resolved a, s') => (Resolved a, s')
    | (Rejected e, s') => h e s'
    end.

Declare Scope async_scope.
Delimit Scope async_scope with async.
Notation "x <- m ;; k" := (bind m (fun x => k))
  (at level 61, m at next level, right associativity) : async_scope.

(** Running a computation of one component inside the pair of both. *)
Definition on_fst {S1 S2 A} (m : Async S1 A) : Async (S1 * S2) A :=
  fun s => let '(o, s1) := m (fst s) in (o, (s1, snd s)).

Definition on_snd {S1 S2 A} (m : Async S2 A) : Async (S1 * S2) A :=
  fun s => let '(o, s2) := m (snd s) in (o, (fst s, s2)).

(* ================================================================== *)
(** * Offline service                                                   *)
(* ================================================================== *)

(** What the service asks of its environment, in the order asked. *)
Inductive Event :=
| Open_database
| Add_record (key : string)
| Get_all_by_synced (flag : bool)
| Get_record (key : string)
| Put_record (key : string)
| Delete_record (key : string)
| Submit (s : Sale.t).

(** The browser as the service sees it: [navigator.onLine], the module
    variable [db] (is a handle cached?), the object store and the trace. *)
Record Browser := mkBrowser {
  onLine : bool;
  db : bool;
  pendingSales : list PendingSale;
  trace : list Event
}.

Definition set_db (b : bool) (w : Browser) : Browser :=
  {| onLine := onLine w; db := b; pendingSales := pendingSales w; trace := trace w |}.

Definition set_pendingSales (l : list PendingSale) (w : Browser) : Browser :=
  {| onLine := onLine w; db := db w; pendingSales := l; trace := trace w |}.

Definition record_event (ev : Event) (w : Browser) : Browser :=
  {| onLine := onLine w; db := db w; pendingSales := pendingSales w;
     trace := trace w ++ [ev] |}.

Definition set_onLine (b : bool) (w : Browser) : Browser :=
  {| onLine := b; db := db w; pendingSales := pendingSales w; trace := trace w |}.

(** The values the platform hands out while a record is built:
    [Date.now()] and [Math.random()] for the key, [new Date().toISOString()],
    and [Date.now()] again. *)
Record Readings := mkReadings {
  now_for_id : string;
  random_for_id : string;
  iso_now : string;
  now_for_storedAt : Z
}.

(** [`offline-${Date.now()}-${Math.random()}`]. *)
Definition offline_id (rd : Readings) : string :=
  ("offline-" ++ now_for_id rd ++ "-" ++ random_for_id rd)%string.

(** Object-store primitives on the list of records. *)
Definition has_key (k : string) (l : list PendingSale) : bool :=
  existsb (fun p => String.eqb (id p) k) l.

Definition store_get (k : string) (l : list PendingSale) : option PendingSale :=
  find (fun p => String.eqb (id p) k) l.

(** [store.add]: a key already present is a constraint error, the store is
    left as it was.  The list keeps the records in the order they were
    added; the service reads the store by key ([store.get]), which does
    not depend on that order. *)
Definition store_add (p : PendingSale) (l : list PendingSale) : option (list PendingSale) :=
  if has_key (id p) l then None else Some (l ++ [p]).

(** [store.put]: replaces the record of that key, or adds it. *)
Fixpoint store_put (p : PendingSale) (l : list PendingSale) : list PendingSale :=
  match l with
  | [] => [p]
  | q :: rest =>
      if String.eqb (id q) (id p) then p :: rest else q :: store_put p rest
  end.

Definition store_delete (k : string) (l : list PendingSale) : list PendingSale :=
  filter (fun p => negb (String.eqb (id p) k)) l.

(** The values the service offers to IndexedDB as keys: the string [id] of
    a record, and the boolean [synced].  A string is a valid key; a boolean
    is not. *)
Inductive KeyValue :=
| Key_of_string (s : string)
| Key_of_boolean (b : bool).

Definition valid_key (v : KeyValue) : bool :=
  match v with
  | Key_of_string _ => true
  | Key_of_boolean _ => false
  end.

(** The index created by [createIndex('synced', 'synced')]: it holds the
    records whose value at the key path is a valid key. *)
Definition index_synced (l : list PendingSale) : list PendingSale :=
  filter (fun p => valid_key (Key_of_boolean (synced p))) l.

(** [index.getAll(flag)]: the query is converted to a key before any
    request is made, and a query that is not a valid key raises
    [DataError]; otherwise the answer is the records of the index with that
    key. *)
Definition index_synced_getAll (flag : bool) (l : list PendingSale)
  : Error + list PendingSale :=
  if valid_key (Key_of_boolean flag)
  then inr (filter (fun p => Bool.eqb (synced p) flag) (index_synced l))
  else inl Data_error.

(** Truthiness of an optional string argument: [null], [undefined] and the
    empty string are falsy. *)
Definition truthy (o : option string) : bool :=
  match o with
  | Some s => negb (String.eqb s "")
  | None => false
  end.

(** [sale.businessId === businessId]. *)
Definition same_business (o : option string) (b : string) : bool :=
  match o with
  | Some b' => String.eqb b b'
  | None => false
  end.

(** What the [onsuccess] handler of [getPendingSales] resolves with: the
    records the request gave, filtered by business when a truthy
    [businessId] was passed. *)
Definition by_business (businessId : option string) (sales : list PendingSale)
  : list PendingSale :=
  if truthy businessId
  then filter (fun s => same_business businessId (Sale.businessId (sale s))) sales
  else sales.

Definition mark_synced (p : PendingSale) : PendingSale :=
  {| sale := sale p; id := id p; synced := true;
     createdAt := createdAt p; storedAt := storedAt p |}.

Section OfflineService.

(** [fault n]: the storage engine answers its [n]-th request (counting the
    events of the trace from 0) with an error event. *)
Variable fault : nat -> bool.

(** One request to the storage engine: traced, then answered. *)
Definition request (ev : Event) (onerror : Error) : Async Browser unit :=
  fun w =>
    if fault (List.length (trace w))
    then (Rejected onerror, record_event ev w)
    else (Resolved tt, record_event ev w).

(** [initDB]. *)
Definition initDB : Async Browser unit :=
  fun w =>
    if db w then (Resolved tt, w)
    else
      match request Open_database Failed_to_open_IndexedDB w with
      | (Resolved _, w') => (Resolved tt, set_db true w')
      | (Rejected e, w') => (Rejected e, w')
      end.

(** [isOnline]. *)
Definition isOnline (w : Browser) : bool := onLine w.

(** [storeSaleOffline].  The request returned by [store.add] is awaited as
    a plain value and has no [onerror] handler: when the engine refuses the
    write (an error event, or a key already present) the transaction is
    aborted, the store keeps its content, and the function still returns
    the identifier.  The surrounding [catch] logs and rethrows. *)
Definition storeSaleOffline (rd : Readings) (saleData : Sale.t) : Async Browser string :=
  (_ <- initDB ;;
   let saleRecord :=
     {| sale := saleData;
        id := offline_id rd;
        synced := false;
        createdAt := iso_now rd;
        storedAt := now_for_storedAt rd |} in
   fun w =>
     let w' := record_event (Add_record (id saleRecord)) w in
     if fault (List.length (trace w)) then (Resolved (id saleRecord), w')
     else
       match store_add saleRecord (pendingSales w) with
       | Some l => (Resolved (id saleRecord), set_pendingSales l w')
       | None => (Resolved (id saleRecord), w')
       end)%async.

(** [getPendingSales(businessId = null)].  [index.getAll(false)] is called
    inside the [try]: what it raises is logged and thrown again by the
    [catch]. *)
Definition getPendingSales (businessId : option string) : Async Browser (list PendingSale) :=
  (_ <- initDB ;;
   fun w =>
     match index_synced_getAll false (pendingSales w) with
     | inl e => (Rejected e, w)
     | inr result =>
         (_ <- request (Get_all_by_synced false) Failed_to_get_pending_sales ;;
          ret (by_business businessId result))%async w
     end)%async.

(** [markSaleAsSynced]: get, and when the record exists set its flag and
    put it back; an error event on either request aborts the transaction. *)
Definition markSaleAsSynced (saleId : string) : Async Browser unit :=
  (_ <- initDB ;;
   _ <- request (Get_record saleId) Failed_to_get_sale ;;
   fun w =>
     match store_get saleId (pendingSales w) with
     | Some s =>
         match request (Put_record (id s)) Failed_to_mark_sale_as_synced w with
         | (Resolved _, w') =>
             (Resolved tt, set_pendingSales (store_put (mark_synced s) (pendingSales w')) w')
         | (Rejected e, w') => (Rejected e, w')
         end
     | None => (Resolved tt, w)
     end)%async.

(** The delete requests of [deleteSyncedSales], issued together in one
    transaction: [true] when every one of them succeeds. *)
Fixpoint delete_requests (l : list PendingSale) (w : Browser) : bool * Browser :=
  match l with
  | [] => (true, w)
  | s :: rest =>
      let ok := negb (fault (List.length (trace w))) in
      let '(oks, w') := delete_requests rest (record_event (Delete_record (id s)) w) in
      (ok && oks, w')
  end.

(** [deleteSyncedSales]: [index.getAll(true)] is called inside the [try],
    as in [getPendingSales]; when a request fails the transaction is
    aborted and the store keeps its content. *)
Definition deleteSyncedSales : Async Browser unit :=
  (_ <- initDB ;;
   fun w =>
     match index_synced_getAll true (pendingSales w) with
     | inl e => (Rejected e, w)
     | inr syncedSales =>
         (_ <- request (Get_all_by_synced true) Failed_to_get_synced_sales ;;
          fun w =>
            let '(ok, w') := delete_requests syncedSales w in
            if ok
            then (Resolved tt,
                  set_pendingSales
                    (fold_left (fun l s => store_delete (id s) l) syncedSales
                               (pendingSales w')) w')
            else (Rejected Delete_request_failed, w'))%async w
     end)%async.

Section Sync.

(** The submit callback acts on a state [R] of its own (the backend). *)
Context {R X : Type}.
Variable addSaleFunction : Sale.t -> Async R X.

(** The object handed to the callback. *)
Definition firestoreSale (s : PendingSale) : Sale.t :=
  {| Sale.businessId := Sale.businessId (sale s);
     Sale.recordedByUserId := Sale.recordedByUserId (sale s);
     Sale.items := Sale.items (sale s);
     Sale.paymentMethod := Sale.paymentMethod (sale s);
     Sale.subtotal := Sale.subtotal (sale s);
     Sale.vatAmount := Sale.vatAmount (sale s);
     Sale.total := Sale.total (sale s) |}.

(** The body of the inner [try]: submit, then mark. *)
Definition sync_one (s : PendingSale) : Async (Browser * R) unit :=
  (_ <- on_fst (fun w => (Resolved tt, record_event (Submit (firestoreSale s)) w)) ;;
   _ <- on_snd (addSaleFunction (firestoreSale s)) ;;
   on_fst (markSaleAsSynced (id s)))%async.

(** The [for ... of] loop with its two counters. *)
Fixpoint sync_loop (pending : list PendingSale) (synced failed : nat)
  : Async (Browser * R) Tally :=
  match pending with
  | [] => ret {| tally_synced := synced; tally_failed := failed |}
  | s :: rest =>
      fun st =>
        match sync_one s st with
        | (Resolved _, st') => sync_loop rest (S synced) failed st'
        | (Rejected _, st') => sync_loop rest synced (S failed) st'
        end
  end.

(** [syncPendingSales]. *)
Definition syncPendingSales (businessId : option string) : Async (Browser * R) Tally :=
  fun st =>
    if negb (isOnline (fst st))
    then (Resolved {| tally_synced := 0; tally_failed := 0 |}, st)
    else
      try_catch
        (pendingSales <- on_fst (getPendingSales businessId) ;;
         t <- sync_loop pendingSales 0 0 ;;
         _ <- on_fst deleteSyncedSales ;;
         ret t)%async
        (fun _ => ret {| tally_synced := 0; tally_failed := 0 |})
        st.

(** [getPendingSalesCount]. *)
Definition getPendingSalesCount (businessId : option string) : Async Browser nat :=
  try_catch
    (pendingSales <- getPendingSales businessId ;; ret (List.length pendingSales))%async
    (fun _ => ret 0%nat).

End Sync.

End OfflineService.

(* ================================================================== *)
(** * Firestore service                                                *)
(* ================================================================== *)

(** A document of the collection [businesses]. *)
Record Business := mkBusiness {
  name : string;
  ownerId : string;
  rraVatRate : option Q
}.

(** A document of the collection [sales], as [addSale] writes it. *)
Module SaleDoc.
Record t := mk {
  businessId : string;
  recordedByUserId : string;
  createdAt : Z;
  items : list SaleItem;
  paymentMethod : string;
  subtotal : Q;
  vatAmount : Q;
  total : Q
}.
End SaleDoc.

(** The backend: is it answering, the two collections, and the time
    [Timestamp.now()] reads. *)
Record Firestore := mkFirestore {
  reachable : bool;
  businesses : list (string * Business);
  sales : list SaleDoc.t;
  clock : Z
}.

Definition lookup_business (k : string) (l : list (string * Business)) : option Business :=
  match find (fun kv => String.eqb (fst kv) k) l with
  | Some kv => Some (snd kv)
  | None => None
  end.

(** [getBusiness]: the document, or [null]. *)
Definition getBusiness (businessId : string) : Async Firestore (option Business) :=
  fun fs =>
    if reachable fs
    then (Resolved (lookup_business businessId (businesses fs)), fs)
    else (Rejected Backend_unavailable, fs).

(** [business.rraVatRate || 0.18]: an absent rate and the rate 0 are falsy. *)
Definition rate_or_default (r : option Q) : Q :=
  match r with
  | Some q => if Qeq_bool q 0 then DEFAULT_VAT_RATE else q
  | None => DEFAULT_VAT_RATE
  end.

(** [items.reduce((sum, item) => sum + item.pricePerItem * item.quantity, 0)]. *)
Definition items_subtotal (l : list SaleItem) : Q :=
  fold_left (fun sum item => sum + pricePerItem item * inject_Z (quantity item)) l 0.

Definition with_sales (ds : list SaleDoc.t) (fs : Firestore) : Firestore :=
  {| reachable := reachable fs; businesses := businesses fs;
     sales := sales fs ++ ds; clock := clock fs |}.

Definition with_sale (d : SaleDoc.t) (fs : Firestore) : Firestore := with_sales [d] fs.

(** [addDoc(collection(db, 'sales'), d)]. *)
Definition addDoc_sales (d : SaleDoc.t) : Async Firestore unit :=
  fun fs =>
    if reachable fs
    then (Resolved tt, with_sale d fs)
    else (Rejected Backend_unavailable, fs).

(** [addSale]; it resolves with [{ success: true }], here [true]. *)
Definition addSale (saleData : Sale.t) : Async Firestore bool :=
  (business <- getBusiness (Sale.businessId saleData) ;;
   match business with
   | None => throw Business_not_found
   | Some business =>
       let vatRate := rate_or_default (rraVatRate business) in
       let subtotal := items_subtotal (Sale.items saleData) in
       let t := calculateTax subtotal (Some vatRate) in
       fun fs =>
         (_ <- addDoc_sales
                 {| SaleDoc.businessId := Sale.businessId saleData;
                    SaleDoc.recordedByUserId := Sale.recordedByUserId saleData;
                    SaleDoc.createdAt := clock fs;
                    SaleDoc.items := Sale.items saleData;
                    SaleDoc.paymentMethod := Sale.paymentMethod saleData;
                    SaleDoc.subtotal := subtotal;
                    SaleDoc.vatAmount := TaxCalculator.vatAmount t;
                    SaleDoc.total := TaxCalculator.total t |} ;;
          ret true) fs
   end)%async.


(* ================================================================== *)
(** * Record Sale page                                                  *)
(* ================================================================== *)

Inductive Toast :=
| toast_error (message : string)
| toast_success (message : string).

(** [error.message]. *)
Definition message_of (e : Error) : string :=
  match e with
  | Failed_to_open_IndexedDB => "Failed to open IndexedDB"
  | Failed_to_get_pending_sales => "Failed to get pending sales"
  | Failed_to_get_sale => "Failed to get sale"
  | Failed_to_mark_sale_as_synced => "Failed to mark sale as synced"
  | Failed_to_get_synced_sales => "Failed to get synced sales"
  | Delete_request_failed => ""
  | Data_error => "The parameter is not a valid key."
  | Business_not_found => "Business not found"
  | Backend_unavailable => "unavailable"
  | Callback_error m => m
  end.

(** White space and line terminators among the code units below 256: TAB,
    LF, VT, FF, CR, SP and NBSP. *)
Definition is_space (c : ascii) : bool :=
  match nat_of_ascii c with
  | 9%nat | 10%nat | 11%nat | 12%nat | 13%nat | 32%nat | 160%nat => true
  | _ => false
  end.

Fixpoint trim_start (s : string) : string :=
  match s with
  | String c rest => if is_space c then trim_start rest else s
  | EmptyString => EmptyString
  end.

Fixpoint trim_end (s : string) : string :=
  match s with
  | String c rest =>
      match trim_end rest with
      | EmptyString => if is_space c then EmptyString else String c EmptyString
      | rest' => String c rest'
      end
  | EmptyString => EmptyString
  end.

(** [String.prototype.trim]. *)
Definition trim (s : string) : string := trim_end (trim_start s).

(** The state of the component that [handleRecordSale] reads. *)
Record Form := mkForm {
  form_productName : string;
  form_price : string;
  form_quantity : string;
  form_paymentMethod : string;
  form_customPaymentMethod : string;
  form_vatRate : Q;
  selectedBusinessId : option string;
  user_uid : string
}.

Definition empty (s : string) : bool := String.eqb s "".

Section RecordSale.

Variable fault : nat -> bool.

(** [parseFloat] and [parseInt] of the platform; [None] is [NaN]. *)
Variable parseFloat : string -> option Q.
Variable parseInt : string -> option Z.

(** The sale object built once the form has passed the checks. *)
Definition saleData_of (f : Form) (bid : string) (manual_now : string)
           (priceValue : Q) (quantityValue : Z) : Sale.t :=
  let finalPaymentMethod :=
    if String.eqb (form_paymentMethod f) "Custom"
    then trim (form_customPaymentMethod f) else form_paymentMethod f in
  let subtotal := priceValue * inject_Z quantityValue in
  let t := calculateTax subtotal (Some (form_vatRate f)) in
  {| Sale.businessId := bid;
     Sale.recordedByUserId := user_uid f;
     Sale.items :=
       [ {| productId := ("manual-" ++ manual_now)%string;
            productName := trim (form_productName f);
            quantity := quantityValue;
            pricePerItem := priceValue |} ];
     Sale.paymentMethod := finalPaymentMethod;
     Sale.subtotal := subtotal;
     Sale.vatAmount := TaxCalculator.vatAmount t;
     Sale.total := TaxCalculator.total t |}.

(** The checks of [handleRecordSale], in order: the first that fails gives
    the toast shown, and passing them all gives the sale to record. *)
Definition validate (f : Form) (manual_now : string) : Toast + Sale.t :=
  if empty (form_productName f) || empty (form_price f)
  then inl (toast_error "Please enter product name and price")
  else if negb (truthy (selectedBusinessId f))
  then inl (toast_error "Please select a business")
  else
    match selectedBusinessId f, parseFloat (form_price f) with
    | None, _ => inl (toast_error "Please select a business")
    | _, None => inl (toast_error "Please enter a valid price")
    | Some bid, Some priceValue =>
        if Qle_bool priceValue 0
        then inl (toast_error "Please enter a valid price")
        else
          match parseInt (form_quantity f) with
          | None => inl (toast_error "Please enter a valid quantity")
          | Some quantityValue =>
              if (quantityValue <=? 0)%Z
              then inl (toast_error "Please enter a valid quantity")
              else if String.eqb (form_paymentMethod f) "Custom"
                      && empty (trim (form_customPaymentMethod f))
              then inl (toast_error "Please enter a custom payment method")
              else inr (saleData_of f bid manual_now priceValue quantityValue)
          end
    end.

(** [error.message || 'Failed to record sale']. *)
Definition failure_toast (e : Error) : Toast :=
  if empty (message_of e) then toast_error "Failed to record sale"
  else toast_error (message_of e).

(** [handleRecordSale]: the toast shown and the state left. *)
Definition handleRecordSale (f : Form) (manual_now : string) (rd : Readings)
  : Browser * Firestore -> Toast * (Browser * Firestore) :=
  fun st =>
    match validate f manual_now with
    | inl t => (t, st)
    | inr saleData =>
        if isOnline (fst st)
        then
          match on_snd (addSale saleData) st with
          | (Resolved _, st') => (toast_success "Sale recorded successfully", st')
          | (Rejected e, st') => (failure_toast e, st')
          end
        else
          match on_fst (storeSaleOffline fault rd saleData) st with
          | (Resolved _, st') =>
              (toast_success
                 "Sale saved offline. It will sync when connection is restored.", st')
          | (Rejected e, st') => (failure_toast e, st')
          end
    end.

(** The callback the page passes to [syncPendingSales]:
    [addSale({...saleData, businessId: selectedBusinessId,
              recordedByUserId: user.uid})]. *)
Definition page_sale (bid uid : string) (saleData : Sale.t) : Sale.t :=
  {| Sale.businessId := bid;
     Sale.recordedByUserId := uid;
     Sale.items := Sale.items saleData;
     Sale.paymentMethod := Sale.paymentMethod saleData;
     Sale.subtotal := Sale.subtotal saleData;
     Sale.vatAmount := Sale.vatAmount saleData;
     Sale.total := Sale.total saleData |}.

Definition page_submitter (bid uid : string) (saleData : Sale.t) : Async Firestore bool :=
  addSale (page_sale bid uid saleData).

End RecordSale.

(* ================================================================== *)
(** * Vocabulary of the statements                                      *)
(* ================================================================== *)

(** The storage engine answers every request. *)
Definition healthy (fault : nat -> bool) : Prop := forall n, fault n = false.

(** The object store has one record per key. *)
Definition keys_unique (l : list PendingSale) : Prop := NoDup (map id l).

(** The sales handed to the submit callback, in the order of the calls. *)
Fixpoint submitted (tr : list Event) : list Sale.t :=
  match tr with
  | [] => []
  | Submit s :: rest => s :: submitted rest
  | _ :: rest => submitted rest
  end.

(** Between the two states the connectivity is the same and the submit
    callback was not called. *)
Definition storage_step (w w' : Browser) : Prop :=
  onLine w' = onLine w /\ submitted (trace w') = submitted (trace w).

(** The state [initDB] leaves when the engine opens the database. *)
Definition opened (w : Browser) : Browser :=
  if db w then w else set_db true (record_event Open_database w).

(** What [markSaleAsSynced] does to the store when its requests succeed. *)
Definition mark_in_store (k : string) (l : list PendingSale) : list PendingSale :=
  match store_get k l with
  | Some s => store_put (mark_synced s) l
  | None => l
  end.

(** Did the promise resolve? *)
Definition is_resolved {A} (o : outcome A) : bool :=
  match o with
  | Resolved _ => true
  | Rejected _ => false
  end.

(** A capture session: [storeSaleOffline] called on each sale in turn. *)
Fixpoint capture_all (fault : nat -> bool) (batch : list (Readings * Sale.t))
  : Async Browser (list string) :=
  match batch with
  | [] => ret []
  | (rd, s) :: rest =>
      (k <- storeSaleOffline fault rd s ;;
       ks <- capture_all fault rest ;;
       ret (k :: ks))%async
  end.

(** The record [storeSaleOffline] builds. *)
Definition saleRecord_of (x : Readings * Sale.t) : PendingSale :=
  {| sale := snd x; id := offline_id (fst x); synced := false;
     createdAt := iso_now (fst x); storedAt := now_for_storedAt (fst x) |}.

(** The document [addSale] writes for a sale when the business has the
    rate field [rate]. *)
Definition saleDoc_of (saleData : Sale.t) (rate : option Q) (now : Z) : SaleDoc.t :=
  let subtotal := items_subtotal (Sale.items saleData) in
  let t := calculateTax subtotal (Some (rate_or_default rate)) in
  {| SaleDoc.businessId := Sale.businessId saleData;
     SaleDoc.recordedByUserId := Sale.recordedByUserId saleData;
     SaleDoc.createdAt := now;
     SaleDoc.items := Sale.items saleData;
     SaleDoc.paymentMethod := Sale.paymentMethod saleData;
     SaleDoc.subtotal := subtotal;
     SaleDoc.vatAmount := TaxCalculator.vatAmount t;
     SaleDoc.total := TaxCalculator.total t |}.

(* ================================================================== *)
(** * Scenarios                                                         *)
(* ================================================================== *)

Module Scenario.

(** A storage engine that answers every request. *)
Definition no_fault : nat -> bool := fun _ => false.

(** [parseInt] and [parseFloat] on strings of decimal digits. *)
Definition digit_value (c : ascii) : option Z :=
  let n := nat_of_ascii c in
  if ((48 <=? n) && (n <=? 57))%nat then Some (Z.of_nat (n - 48)) else None.

Fixpoint digits_value (s : string) (acc : Z) : option Z :=
  match s with
  | EmptyString => Some acc
  | String c rest =>
      match digit_value c with
      | Some d => digits_value rest (10 * acc + d)
      | None => None
      end
  end.

Definition parseInt (s : string) : option Z :=
  match s with
  | EmptyString => None
  | _ => digits_value s 0
  end.

Definition parseFloat (s : string) : option Q :=
  match parseInt s with
  | Some z => Some (inject_Z z)
  | None => None
  end.

Definition shop : string := "biz-1".
Definition clerk : string := "user-1".

(** The form of a cash sale of one item at [price], with the page's rate. *)
Definition form_for (price : string) (rate : Q) : Form :=
  {| form_productName := "Soap";
     form_price := price;
     form_quantity := "1";
     form_paymentMethod := "Cash";
     form_customPaymentMethod := "";
     form_vatRate := rate;
     selectedBusinessId := Some shop;
     user_uid := clerk |}.

Definition readings_at (now : string) : Readings :=
  {| now_for_id := now;
     random_for_id := "0.5";
     iso_now := "2025-01-01T00:00:00.000Z";
     now_for_storedAt := 0 |}.

Definition offline_browser : Browser :=
  {| onLine := false; db := false; pendingSales := []; trace := [] |}.

Definition backend : Firestore :=
  {| reachable := true;
     businesses := [ (shop, {| name := "Shop"; ownerId := clerk;
                               rraVatRate := Some (18 # 100) |}) ];
     sales := [];
     clock := 0 |}.

Definition capture (fault : nat -> bool) (price now : string)
           (st : Browser * Firestore) : Browser * Firestore :=
  snd (handleRecordSale fault parseFloat parseInt (form_for price (18 # 100)) now
                        (readings_at now) st).


(** Scenario B: three sales of 50, 75 and 20 captured offline at 18%. *)
Definition scenario_B : Browser * Firestore :=
  capture no_fault "20" "1003"
    (capture no_fault "75" "1002"
       (capture no_fault "50" "1001" (offline_browser, backend))).

(** A callback that fails on the sale of 75 and lets the page's callback
    write the others. *)
Definition failing_on_75 (s : Sale.t) : Async Firestore bool :=
  if Qeq_bool (Sale.subtotal s) 75
  then throw (Callback_error "network error")
  else page_submitter shop clerk s.

(** The queue of scenario B once the sales of 50 and 20 have been marked:
    two synchronised records and one unsynchronised. *)
Definition two_synced_one_pending : Browser :=
  snd (markSaleAsSynced no_fault "offline-1003-0.5"
         (snd (markSaleAsSynced no_fault "offline-1001-0.5" (fst scenario_B)))).

(** The record of the sale of 75 as the queue holds it. *)
Definition record_75 : PendingSale :=
  {| sale :=
       {| Sale.businessId := shop;
          Sale.recordedByUserId := clerk;
          Sale.items := [ {| productId := "manual-1002"; productName := "Soap";
                             quantity := 1; pricePerItem := inject_Z 75 |} ];
          Sale.paymentMethod := "Cash";
          Sale.subtotal := inject_Z 75 * inject_Z 1;
          Sale.vatAmount := 1350 # 100;
          Sale.total := 8850 # 100 |};
     id := "offline-1002-0.5";
     synced := false;
     createdAt := "2025-01-01T00:00:00.000Z";
     storedAt := 0 |}.



(** The three sales of scenario B with the readings of their capture. *)
Definition sale_of (price : Z) (now : string) : Sale.t :=
  saleData_of (form_for "" (18 # 100)) shop now (inject_Z price) 1.

Definition batch_B : list (Readings * Sale.t) :=
  [ (readings_at "1001", sale_of 50 "1001");
    (readings_at "1002", sale_of 75 "1002");
    (readings_at "1003", sale_of 20 "1003") ].

End Scenario.

(* ================================================================== *)
(** * Further cases                                                     *)
(* ================================================================== *)

Module Cases.


(** A backend that answers and has no business. *)
Definition no_business : Firestore :=
  {| reachable := true; businesses := []; sales := []; clock := 0 |}.

End Cases.

Module ZeroRated.

(** A backend whose business has the VAT rate 0. *)
Definition backend : Firestore :=
  {| reachable := true;
     businesses := [ (Scenario.shop, {| name := "Shop"; ownerId := Scenario.clerk;
                                        rraVatRate := Some 0 |}) ];
     sales := [];
     clock := 0 |}.

End ZeroRated.

(* ================================================================== *)
(** * Queries on the sales collection                                   *)
(* ================================================================== *)

(** [orderBy('createdAt', 'desc')]: newest first.  Documents of the same
    [createdAt] keep the order of the collection. *)
Fixpoint insert_desc (d : SaleDoc.t) (l : list SaleDoc.t) : list SaleDoc.t :=
  match l with
  | [] => [d]
  | x :: rest =>
      if (SaleDoc.createdAt x <? SaleDoc.createdAt d)%Z
      then d :: l
      else x :: insert_desc d rest
  end.

Fixpoint newest_first (l : list SaleDoc.t) : list SaleDoc.t :=
  match l with
  | [] => []
  | d :: rest => insert_desc d (newest_first rest)
  end.

(** [where('businessId', '==', businessId)]. *)
Definition of_business (businessId : string) (d : SaleDoc.t) : bool :=
  String.eqb (SaleDoc.businessId d) businessId.

(** [where('createdAt', '>=', start)] and [where('createdAt', '<=', end)]. *)
Definition created_within (startDate endDate : Z) (d : SaleDoc.t) : bool :=
  ((startDate <=? SaleDoc.createdAt d) && (SaleDoc.createdAt d <=? endDate))%Z.

(** [getDocs] on a query over the sales collection. *)
Definition getDocs_sales (keep : SaleDoc.t -> bool) : Async Firestore (list SaleDoc.t) :=
  fun fs =>
    if reachable fs
    then (Resolved (newest_first (filter keep (sales fs))), fs)
    else (Rejected Backend_unavailable, fs).

(** [getSalesByDate]. *)
Definition getSalesByDate (businessId : string) (startDate endDate : Z)
  : Async Firestore (list SaleDoc.t) :=
  getDocs_sales (fun d => of_business businessId d && created_within startDate endDate d).

(** [getAllSales]. *)
Definition getAllSales (businessId : string) : Async Firestore (list SaleDoc.t) :=
  getDocs_sales (of_business businessId).

(** [x] was created no earlier than [y]. *)
Definition newer_or_same (x y : SaleDoc.t) : Prop :=
  (SaleDoc.createdAt y <= SaleDoc.createdAt x)%Z.

(* ================================================================== *)
(** * Cloud function generateSalesReport                                *)
(* ================================================================== *)

Module Functions.

Record Report := mkReport {
  success : bool;
  businessId : string;
  period : string;
  transactionCount : nat;
  totalSales : Q;
  totalVAT : Q;
  grandTotal : Q
}.

(** What the function sends: [res.status(code).send(text)] or
    [res.json(report)]. *)
Inductive Response :=
| Status (code : Z) (text : string)
| Json (report : Report).

(** [7 * 24 * 60 * 60 * 1000]. *)
Definition week_ms : Z := 7 * 24 * 60 * 60 * 1000.

(** [x || 0] on a number. *)
Definition or_zero (x : Q) : Q := if Qeq_bool x 0 then 0 else x.

(** The documents of the query: the sales of the business created in the
    seven days up to [now], both ends included. *)
Definition last_week (businessId : string) (now : Z) (l : list SaleDoc.t) : list SaleDoc.t :=
  filter (fun d => of_business businessId d && created_within (now - week_ms) now d) l.

(** [generateSalesReport], for the query parameter [businessId] and the
    reading [now] of [Timestamp.now()]. *)
Definition generateSalesReport (businessId : option string) (now : Z) (fs : Firestore)
  : Response :=
  if negb (truthy businessId) then Status 400 "businessId is required"
  else
    match businessId with
    | None => Status 400 "businessId is required"
    | Some b =>
        if reachable fs
        then
          let docs := last_week b now (sales fs) in
          let totalSales :=
            fold_left (fun sum sale => sum + or_zero (SaleDoc.total sale)) docs 0 in
          let totalVAT :=
            fold_left (fun sum sale => sum + or_zero (SaleDoc.vatAmount sale)) docs 0 in
          let transactionCount := fold_left (fun n _ => S n) docs 0%nat in
          Json {| success := true;
                  businessId := b;
                  period := "Last 7 days";
                  transactionCount := transactionCount;
                  totalSales := totalSales;
                  totalVAT := totalVAT;
                  grandTotal := totalSales |}
        else Status 500 "Error generating report"
    end.

End Functions.

(* ================================================================== *)
(** * Authentication service: error messages                            *)
(* ================================================================== *)

Module Auth.

(** An error as [getErrorMessage] reads it: its [code] and [message],
    each possibly absent. *)
Record FirebaseError := mkFirebaseError {
  code : option string;
  message : option string
}.

(** [s || fallback] on an optional string: absent and empty are falsy. *)
Definition or_else (s : option string) (fallback : string) : string :=
  match s with
  | Some m => if String.eqb m "" then fallback else m
  | None => fallback
  end.

(** [getErrorMessage]. *)
Definition getErrorMessage (error : FirebaseError) : string :=
  if negb (truthy (code error)) then or_else (message error) "An error occurred"
  else
    match code error with
    | None => or_else (message error) "An error occurred"
    | Some c =>
        if String.eqb c "auth/email-already-in-use"
        then "This email is already registered. Please sign in instead."
        else if String.eqb c "auth/invalid-email"
        then "Invalid email address. Please check your email and try again."
        else if String.eqb c "auth/weak-password"
        then "Password is too weak. Please use at least 6 characters."
        else if String.eqb c "auth/user-not-found"
        then "No account found with this email. Please check your email or create an account."
        else if String.eqb c "auth/wrong-password"
        then "Incorrect password. Please try again."
        else if String.eqb c "auth/too-many-requests"
        then "Too many failed attempts. Please try again later."
        else or_else (message error) "An error occurred. Please try again."
    end.

End Auth.

(* ================================================================== *)
(** * Invitations (firestoreService)                                    *)
(* ================================================================== *)

Module Invitations.

(** A document of the collection [invitations]. *)
Record Invitation := mkInvitation {
  businessId : string;
  email : string;
  invitedBy : string;
  token : string;
  status : string;
  createdAt : Z;
  acceptedAt : option Z;
  acceptedBy : option string
}.

(** A document of the collection [users]. *)
Record UserDoc := mkUserDoc {
  user_email : string;
  user_name : string;
  user_businessId : option string;
  user_role : option string
}.

(** The part of the backend the invitation functions use: the two
    collections, listed in the order a query without [orderBy] gives the
    documents, the field [salesRepIds] of each business document, and the
    time [Timestamp.now()] reads. *)
Record Db := mkDb {
  answering : bool;
  invitations : list (string * Invitation);
  users : list (string * UserDoc);
  salesRepIds : list (string * list string);
  time : Z
}.

Inductive Failure :=
| Unavailable
| Invitation_not_found
| Invitation_already_used_or_expired
| No_document_to_update.

Inductive answer (A : Type) : Type :=
| Ok (a : A)
| Failed (f : Failure).
Arguments Ok {A} a.
Arguments Failed {A} f.

(** Documents by identifier. *)
Fixpoint doc_get {A} (k : string) (l : list (string * A)) : option A :=
  match l with
  | [] => None
  | (k', v) :: rest => if String.eqb k' k then Some v else doc_get k rest
  end.

Fixpoint doc_update {A} (k : string) (f : A -> A) (l : list (string * A))
  : list (string * A) :=
  match l with
  | [] => []
  | (k', v) :: rest =>
      if String.eqb k' k then (k', f v) :: rest else (k', v) :: doc_update k f rest
  end.

Definition has_doc {A} (k : string) (l : list (string * A)) : bool :=
  match doc_get k l with
  | Some _ => true
  | None => false
  end.

(** [deleteDoc]. *)
Definition doc_delete {A} (k : string) (l : list (string * A)) : list (string * A) :=
  filter (fun kv => negb (String.eqb (fst kv) k)) l.

(** [addDoc]: the new document gets an identifier of the platform's
    choice and so a place among the others. *)
Definition doc_add {A} (place : nat) (k : string) (v : A) (l : list (string * A))
  : list (string * A) :=
  firstn place l ++ (k, v) :: skipn place l.

(** [arrayUnion(x)] and [arrayRemove(x)]. *)
Definition arrayUnion (x : string) (l : list string) : list string :=
  if existsb (String.eqb x) l then l else l ++ [x].

Definition arrayRemove (x : string) (l : list string) : list string :=
  filter (fun y => negb (String.eqb y x)) l.

(** [String.prototype.toLowerCase] on a code unit below 256: the letters
    A to Z, and the letters U+00C0 to U+00DE but the sign U+00D7, have
    their lower case 32 further. *)
Definition lower (c : ascii) : ascii :=
  let n := nat_of_ascii c in
  if ((65 <=? n) && (n <=? 90))%nat
     || ((192 <=? n) && (n <=? 222) && negb (n =? 215))%nat
  then ascii_of_nat (n + 32) else c.

Fixpoint toLowerCase (s : string) : string :=
  match s with
  | EmptyString => EmptyString
  | String c rest => String (lower c) (toLowerCase rest)
  end.

(** [createInvitation]; [new_token] is the token built from [Date.now()]
    and [Math.random()], [new_id] and [place] are the identifier the
    platform gives the document and where it lands.  It resolves with
    [{ id, token }]. *)
Definition createInvitation (businessId email invitedBy : string)
           (new_token new_id : string) (place : nat) (db : Db)
  : answer (string * string) * Db :=
  if answering db
  then (Ok (new_id, new_token),
        {| answering := answering db;
           invitations :=
             doc_add place new_id
                     {| businessId := businessId;
                        email := trim (toLowerCase email);
                        invitedBy := invitedBy;
                        token := new_token;
                        status := "pending";
                        createdAt := time db;
                        acceptedAt := None;
                        acceptedBy := None |}
                     (invitations db);
           users := users db;
           salesRepIds := salesRepIds db;
           time := time db |})
  else (Failed Unavailable, db).

(** [getInvitationByToken]: the first pending invitation of that token,
    with its identifier, or [null]. *)
Definition getInvitationByToken (tok : string) (db : Db)
  : answer (option (string * Invitation)) * Db :=
  if answering db
  then (Ok (find (fun kv => String.eqb (token (snd kv)) tok
                            && String.eqb (status (snd kv)) "pending")
                 (invitations db)),
        db)
  else (Failed Unavailable, db).

(** [acceptInvitation]: one transaction.  [transaction.update] needs the
    document to exist; when the user or the business document is missing
    the transaction fails and writes nothing.  It resolves with
    [{ businessId }]. *)
Definition acceptInvitation (invitationId userId : string) (db : Db)
  : answer string * Db :=
  if negb (answering db) then (Failed Unavailable, db)
  else
    match doc_get invitationId (invitations db) with
    | None => (Failed Invitation_not_found, db)
    | Some invitation =>
        if negb (String.eqb (status invitation) "pending")
        then (Failed Invitation_already_used_or_expired, db)
        else if has_doc userId (users db)
                && has_doc (businessId invitation) (salesRepIds db)
        then (Ok (businessId invitation),
              {| answering := answering db;
                 invitations :=
                   doc_update invitationId
                     (fun i => {| businessId := businessId i;
                                  email := email i;
                                  invitedBy := invitedBy i;
                                  token := token i;
                                  status := "accepted";
                                  createdAt := createdAt i;
                                  acceptedAt := Some (time db);
                                  acceptedBy := Some userId |})
                     (invitations db);
                 users :=
                   doc_update userId
                     (fun u => {| user_email := user_email u;
                                  user_name := user_name u;
                                  user_businessId := Some (businessId invitation);
                                  user_role := Some "representative" |})
                     (users db);
                 salesRepIds :=
                   doc_update (businessId invitation) (arrayUnion userId) (salesRepIds db);
                 time := time db |})
        else (Failed No_document_to_update, db)
    end.

(** [removeSalesRep]: one transaction; it resolves with
    [{ success: true }]. *)
Definition removeSalesRep (businessId salesRepId : string) (db : Db) : answer bool * Db :=
  if negb (answering db) then (Failed Unavailable, db)
  else if has_doc businessId (salesRepIds db) && has_doc salesRepId (users db)
  then (Ok true,
        {| answering := answering db;
           invitations := invitations db;
           users :=
             doc_update salesRepId
               (fun u => {| user_email := user_email u;
                            user_name := user_name u;
                            user_businessId := None;
                            user_role := None |})
               (users db);
           salesRepIds := doc_update businessId (arrayRemove salesRepId) (salesRepIds db);
           time := time db |})
  else (Failed No_document_to_update, db).

(** [deleteInvitation]. *)
Definition deleteInvitation (invitationId : string) (db : Db) : answer unit * Db :=
  if answering db
  then (Ok tt,
        {| answering := answering db;
           invitations := doc_delete invitationId (invitations db);
           users := users db;
           salesRepIds := salesRepIds db;
           time := time db |})
  else (Failed Unavailable, db).

(** One identifier per document. *)
Definition ids_unique {A} (l : list (string * A)) : Prop := NoDup (map fst l).

(** A backend with one business, one user without a business, and one
    pending invitation. *)
Definition example : Db :=
  {| answering := true;
     invitations :=
       [ ("inv-1", {| businessId := "biz-1"; email := "rep@shop.rw"; invitedBy := "user-1";
                      token := "1700000000000-abc12"; status := "pending";
                      createdAt := 0; acceptedAt := None; acceptedBy := None |}) ];
     users :=
       [ ("user-2", {| user_email := "rep@shop.rw"; user_name := "Rep";
                       user_businessId := None; user_role := None |}) ];
     salesRepIds := [ ("biz-1", []) ];
     time := 10 |}.

End Invitations.

(* ================================================================== *)
(** * Properties of the tax calculator                                 *)
(* ================================================================== *)

Section TaxFacts.

Lemma Qfloor_unique (x : Q) (z : Z) :
  inject_Z z <= x -> x < inject_Z (z + 1) -> Qfloor x = z.
Proof.
  intros Hlo Hhi.
  pose proof (Qfloor_le x) as Hf.
  pose proof (Qlt_floor x) as Hc.
  assert (H1 : (z < Qfloor x + 1)%Z).
  { rewrite Zlt_Qlt. eapply Qle_lt_trans; eauto. }
  assert (H2 : (Qfloor x < z + 1)%Z).
  { rewrite Zlt_Qlt. eapply Qle_lt_trans; eauto. }
  lia.
Qed.

Lemma Qfloor_add_Z (n : Z) (y : Q) : Qfloor (inject_Z n + y) = (n + Qfloor y)%Z.
Proof.
  apply Qfloor_unique.
  - rewrite inject_Z_plus. apply Qplus_le_r. apply Qfloor_le.
  - replace (n + Qfloor y + 1)%Z with (n + (Qfloor y + 1))%Z by lia.
    rewrite inject_Z_plus. apply Qplus_lt_r. apply Qlt_floor.
Qed.

Lemma nearest_hundredth_mono (x y : Q) :
  x <= y -> (nearest_hundredth x <= nearest_hundredth y)%Z.
Proof.
  intros H. unfold nearest_hundredth. apply Qfloor_resp_le.
  apply Qplus_le_l. apply Qmult_le_compat_r; [exact H | discriminate].
Qed.

Lemma nearest_hundredth_comp (x y : Q) :
  x == y -> nearest_hundredth x = nearest_hundredth y.
Proof.
  intros H. unfold nearest_hundredth. apply Qfloor_comp. rewrite H. reflexivity.
Qed.

Lemma toFixed2_nonneg (x : Q) : 0 <= x -> toFixed2 x = nearest_hundredth x.
Proof.
  intros H. unfold toFixed2.
  destruct (Qle_bool 0 x) eqn:E; [reflexivity|].
  apply Qle_bool_iff in H. congruence.
Qed.

Lemma toFixed2_comp (x y : Q) : x == y -> toFixed2 x = toFixed2 y.
Proof.
  intros H. unfold toFixed2.
  assert (E : Qle_bool 0 x = Qle_bool 0 y).
  { destruct (Qle_bool 0 x) eqn:Ex, (Qle_bool 0 y) eqn:Ey; try reflexivity.
    - apply Qle_bool_iff in Ex. rewrite H in Ex. apply Qle_bool_iff in Ex. congruence.
    - apply Qle_bool_iff in Ey. rewrite <- H in Ey. apply Qle_bool_iff in Ey. congruence. }
  rewrite E. destruct (Qle_bool 0 y).
  - apply nearest_hundredth_comp, H.
  - f_equal. apply nearest_hundredth_comp. rewrite H. reflexivity.
Qed.

Lemma round2_comp (x y : Q) : x == y -> round2 x = round2 y.
Proof. intros H. unfold round2. rewrite (toFixed2_comp x y H). reflexivity. Qed.

Lemma round2_mono (x y : Q) : 0 <= x -> x <= y -> round2 x <= round2 y.
Proof.
  intros Hx Hxy. unfold round2.
  rewrite !toFixed2_nonneg by (try assumption; eapply Qle_trans; eauto).
  pose proof (nearest_hundredth_mono x y Hxy).
  unfold Qle; simpl. lia.
Qed.

(** Rounding leaves an amount of whole hundredths alone, and commutes with
    adding one. *)
Lemma nearest_hundredth_shift (n : Z) (v : Q) :
  nearest_hundredth ((n # 100) + v) = (n + nearest_hundredth v)%Z.
Proof.
  unfold nearest_hundredth.
  rewrite <- Qfloor_add_Z. apply Qfloor_comp.
  assert (E : (n # 100) * 100 == inject_Z n).
  { unfold Qeq, Qmult, inject_Z; simpl. lia. }
  rewrite Qmult_plus_distr_l, E. rewrite Qplus_assoc. reflexivity.
Qed.

Lemma nearest_hundredth_whole (n : Z) : nearest_hundredth (n # 100) = n.
Proof.
  rewrite (nearest_hundredth_comp (n # 100) ((n # 100) + 0)) by (rewrite Qplus_0_r; reflexivity).
  rewrite nearest_hundredth_shift.
  change (nearest_hundredth 0) with 0%Z. lia.
Qed.

End TaxFacts.

Lemma nearest_hundredth_nonneg (x : Q) : 0 <= x -> (0 <= nearest_hundredth x)%Z.
Proof.
  intros H. change 0%Z with (nearest_hundredth 0).
  apply nearest_hundredth_mono, H.
Qed.




(** C8, the claim as stated fails: given the negative subtotal -5 and the
    rate 2, outside [0,1], [calculateTax] raises nothing and returns
    {subtotal: -5.00, vatAmount: -10.00, total: -15.00}. *)
Lemma calculateTax_accepts_invalid_input :
  calculateTax_call (-5 # 1) (Some 2)
  = Returns {| subtotal := -500 # 100; vatAmount := -1000 # 100; total := -1500 # 100 |}
  /\ ~ (exists condition, calculateTax_call (-5 # 1) (Some 2) = Throws condition).
Proof.
  split; [reflexivity|]. intros [c Hc]. discriminate Hc.
Qed.

(** C8, amended: [calculateTax] never fails, whatever numbers it is given:
    a negative subtotal or a rate outside [0,1] is neither rejected nor
    clamped, and the result is computed from them by the same three
    formulas (with the rate 0.18 when none is passed). *)
Theorem calculateTax_call_always_returns (s : Q) (r : option Q) :
  exists t,
    calculateTax_call s r = Returns t
    /\ (forall condition, calculateTax_call s r <> Throws condition)
    /\ subtotal t = round2 s
    /\ vatAmount t = round2 (s * match r with Some q => q | None => 18 # 100 end)
    /\ total t = round2 (s + s * match r with Some q => q | None => 18 # 100 end).
Proof.
  exists (calculateTax s r). split; [reflexivity|]. split; [discriminate|].
  destruct r; repeat split; reflexivity.
Qed.

(* ================================================================== *)
(** * The object store                                                  *)
(* ================================================================== *)

Section StoreFacts.

Lemma submitted_app (a b : list Event) : submitted (a ++ b) = submitted a ++ submitted b.
Proof.
  induction a as [|ev a IH]; [reflexivity|].
  destruct ev; simpl; rewrite IH; reflexivity.
Qed.

Lemma store_get_id (k : string) (l : list PendingSale) (s : PendingSale) :
  store_get k l = Some s -> id s = k /\ In s l.
Proof.
  unfold store_get. intros H. apply find_some in H. destruct H as [Hin He].
  apply String.eqb_eq in He. auto.
Qed.

Lemma mark_synced_id (p : PendingSale) : id (mark_synced p) = id p.
Proof. reflexivity. Qed.

Lemma mark_synced_of_synced (p : PendingSale) : synced p = true -> mark_synced p = p.
Proof. destruct p; simpl. intros ->. reflexivity. Qed.

Lemma mark_synced_twice (p : PendingSale) : mark_synced (mark_synced p) = mark_synced p.
Proof. reflexivity. Qed.

(** Putting back the record just read changes nothing. *)
Lemma store_put_same (k : string) (l : list PendingSale) (s : PendingSale) :
  store_get k l = Some s -> store_put s l = l.
Proof.
  induction l as [|q l IH]; simpl; [discriminate|].
  unfold store_get; simpl. destruct (String.eqb (id q) k) eqn:E.
  - intros H. injection H as <-. rewrite String.eqb_refl. reflexivity.
  - intros H. pose proof (store_get_id k l s H) as [Hk _].
    rewrite Hk, E. f_equal. apply IH. exact H.
Qed.

(** After a put, a get of that key reads the record put. *)
Lemma store_get_put (p : PendingSale) (l : list PendingSale) :
  store_get (id p) (store_put p l) = Some p.
Proof.
  induction l as [|q l IH]; simpl.
  - unfold store_get; simpl. rewrite String.eqb_refl. reflexivity.
  - destruct (String.eqb (id q) (id p)) eqn:E.
    + unfold store_get; simpl. rewrite String.eqb_refl. reflexivity.
    + unfold store_get; simpl. rewrite E. exact IH.
Qed.

Lemma store_put_twice (p : PendingSale) (l : list PendingSale) :
  store_put p (store_put p l) = store_put p l.
Proof. apply store_put_same with (k := id p). apply store_get_put. Qed.

Lemma mark_in_store_twice (k : string) (l : list PendingSale) :
  mark_in_store k (mark_in_store k l) = mark_in_store k l.
Proof.
  unfold mark_in_store at 2 3. destruct (store_get k l) as [s|] eqn:E.
  - destruct (store_get_id k l s E) as [Hk _].
    unfold mark_in_store. rewrite <- Hk, <- (mark_synced_id s), store_get_put.
    rewrite mark_synced_twice. apply store_put_twice.
  - unfold mark_in_store. rewrite E. reflexivity.
Qed.

Lemma mark_in_store_synced (k : string) (l : list PendingSale) (s : PendingSale) :
  store_get k l = Some s -> synced s = true -> mark_in_store k l = l.
Proof.
  intros E Hs. unfold mark_in_store. rewrite E, (mark_synced_of_synced s Hs).
  apply store_put_same with (k := k), E.
Qed.

Lemma mark_in_store_absent (k : string) (l : list PendingSale) :
  store_get k l = None -> mark_in_store k l = l.
Proof. intros E. unfold mark_in_store. rewrite E. reflexivity. Qed.

End StoreFacts.

Lemma existsb_eqb_In (k : string) (ks : list string) :
  existsb (String.eqb k) ks = true <-> In k ks.
Proof.
  rewrite existsb_exists. split.
  - intros (x & Hx & E). apply String.eqb_eq in E. subst. exact Hx.
  - intros H. exists k. split; [exact H | apply String.eqb_refl].
Qed.

(* ================================================================== *)
(** * One record per key: an invariant of the service                   *)
(* ================================================================== *)

Section Invariant.

Variable fault : nat -> bool.

Lemma store_put_keys (p : PendingSale) (l : list PendingSale) :
  map id (store_put p l) = if has_key (id p) l then map id l else map id l ++ [id p].
Proof.
  unfold has_key. induction l as [|q l IH]; [reflexivity|]. simpl.
  destruct (String.eqb (id q) (id p)) eqn:E; simpl.
  - apply String.eqb_eq in E. rewrite E. reflexivity.
  - rewrite IH. destruct (existsb _ l); reflexivity.
Qed.

Lemma has_key_true (k : string) (l : list PendingSale) :
  has_key k l = true <-> In k (map id l).
Proof.
  unfold has_key. rewrite existsb_exists, in_map_iff. split.
  - intros (p & Hp & E). apply String.eqb_eq in E. eauto.
  - intros (p & E & Hp). exists p. split; [exact Hp|]. rewrite E. apply String.eqb_refl.
Qed.

Lemma keys_unique_snoc (p : PendingSale) (l : list PendingSale) :
  keys_unique l -> has_key (id p) l = false -> keys_unique (l ++ [p]).
Proof.
  unfold keys_unique. intros Hu Hk. rewrite map_app. apply NoDup_app.
  - exact Hu.
  - simpl. constructor; [tauto | constructor].
  - intros k Hin [<-|[]]. apply has_key_true in Hin. congruence.
Qed.

Lemma store_add_unique (p : PendingSale) (l l' : list PendingSale) :
  keys_unique l -> store_add p l = Some l' -> keys_unique l'.
Proof.
  unfold store_add. intros Hu. destruct (has_key (id p) l) eqn:E; [discriminate|].
  intros H. injection H as <-. apply keys_unique_snoc; assumption.
Qed.

Lemma store_put_unique (p : PendingSale) (l : list PendingSale) :
  keys_unique l -> keys_unique (store_put p l).
Proof.
  intros Hu. unfold keys_unique. rewrite store_put_keys.
  destruct (has_key (id p) l) eqn:E; [exact Hu|].
  change [id p] with (map id [p]). rewrite <- map_app.
  apply keys_unique_snoc; assumption.
Qed.

Lemma request_store ev e w : pendingSales (snd (request fault ev e w)) = pendingSales w.
Proof. unfold request. destruct (fault _); reflexivity. Qed.

Lemma initDB_store w : pendingSales (snd (initDB fault w)) = pendingSales w.
Proof.
  unfold initDB. destruct (db w); [reflexivity|].
  pose proof (request_store Open_database Failed_to_open_IndexedDB w) as H.
  destruct (request fault Open_database Failed_to_open_IndexedDB w) as [[u|e] w']; exact H.
Qed.

Lemma storeSaleOffline_keeps_keys_unique rd s w :
  keys_unique (pendingSales w) ->
  keys_unique (pendingSales (snd (storeSaleOffline fault rd s w))).
Proof.
  intros Hu. unfold storeSaleOffline, bind.
  pose proof (initDB_store w) as H0.
  destruct (initDB fault w) as [[u|e] w1]; cbn [snd] in *; [|rewrite H0; exact Hu].
  destruct (fault _); cbn [snd pendingSales record_event]; [rewrite H0; exact Hu|].
  destruct (store_add _ (pendingSales w1)) as [l|] eqn:E;
    cbn [snd pendingSales set_pendingSales record_event].
  - apply (store_add_unique _ _ _ (eq_ind_r keys_unique Hu H0) E).
  - rewrite H0. exact Hu.
Qed.

Lemma markSaleAsSynced_keeps_keys_unique k w :
  keys_unique (pendingSales w) ->
  keys_unique (pendingSales (snd (markSaleAsSynced fault k w))).
Proof.
  intros Hu. unfold markSaleAsSynced, bind.
  pose proof (initDB_store w) as H0.
  destruct (initDB fault w) as [[u|e] w1]; cbn [snd] in *; [|rewrite H0; exact Hu].
  pose proof (request_store (Get_record k) Failed_to_get_sale w1) as H1.
  destruct (request fault (Get_record k) Failed_to_get_sale w1) as [[u1|e1] w2];
    cbn [snd] in *; [|rewrite H1, H0; exact Hu].
  destruct (store_get k (pendingSales w2)) as [s|];
    [|cbn [snd]; rewrite H1, H0; exact Hu].
  pose proof (request_store (Put_record (id s)) Failed_to_mark_sale_as_synced w2) as H2.
  destruct (request fault (Put_record (id s)) Failed_to_mark_sale_as_synced w2)
    as [[u2|e2] w3]; cbn [snd pendingSales set_pendingSales] in *.
  - apply store_put_unique. rewrite H2, H1, H0. exact Hu.
  - rewrite H2, H1, H0. exact Hu.
Qed.

End Invariant.

(* ================================================================== *)
(** * Runs on a healthy storage engine                                  *)
(* ================================================================== *)

Section HealthyRuns.

Variable fault : nat -> bool.
Hypothesis Hfault : healthy fault.

Ltac trace_simpl :=
  cbn [trace pendingSales onLine db set_pendingSales record_event set_db];
  rewrite ?submitted_app; cbn [submitted]; rewrite ?app_nil_r.

Lemma request_healthy ev e w : request fault ev e w = (Resolved tt, record_event ev w).
Proof. unfold request. rewrite Hfault. reflexivity. Qed.

Lemma initDB_healthy w : initDB fault w = (Resolved tt, opened w).
Proof.
  unfold initDB, opened. destruct (db w); [reflexivity|].
  rewrite request_healthy. reflexivity.
Qed.

Lemma opened_store w : pendingSales (opened w) = pendingSales w.
Proof. unfold opened. destruct (db w); reflexivity. Qed.

Lemma opened_step w : storage_step w (opened w).
Proof.
  unfold opened, storage_step. destruct (db w); [auto|]. simpl.
  rewrite submitted_app. simpl. rewrite app_nil_r. auto.
Qed.

Lemma markSaleAsSynced_healthy k w :
  exists w',
    markSaleAsSynced fault k w = (Resolved tt, w')
    /\ pendingSales w' = mark_in_store k (pendingSales w) /\ storage_step w w'.
Proof.
  unfold markSaleAsSynced, bind. rewrite initDB_healthy, request_healthy.
  destruct (opened_step w) as [H1 H2].
  unfold mark_in_store. simpl pendingSales. rewrite opened_store.
  destruct (store_get k (pendingSales w)) as [s|] eqn:E.
  - rewrite request_healthy. eexists. split; [reflexivity|]. simpl.
    rewrite opened_store. split; [reflexivity|]. split; [exact H1|].
    trace_simpl. exact H2.
  - eexists. split; [reflexivity|]. simpl. rewrite opened_store.
    split; [reflexivity|]. split; [exact H1|].
    trace_simpl. exact H2.
Qed.

End HealthyRuns.

(* ================================================================== *)
(** * The index over the boolean field                                  *)
(* ================================================================== *)

Section IndexFacts.

Variable fault : nat -> bool.

(** No record is in the index: the value of [synced] is never a key. *)
Lemma index_synced_empty (l : list PendingSale) : index_synced l = [].
Proof. unfold index_synced. induction l as [|p l IH]; [reflexivity | exact IH]. Qed.

(** Either query of the service raises. *)
Lemma index_synced_getAll_raises (flag : bool) (l : list PendingSale) :
  index_synced_getAll flag l = inl Data_error.
Proof. reflexivity. Qed.

Lemma initDB_step w : storage_step w (snd (initDB fault w)).
Proof.
  unfold initDB, request, storage_step. destruct (db w); [auto|].
  destruct (fault _); cbn [snd onLine trace record_event set_db];
    rewrite submitted_app; cbn [submitted]; rewrite app_nil_r; auto.
Qed.

(** [getPendingSales] rejects on every store: with the error of [initDB]
    when the database cannot be opened, with [DataError] otherwise; it
    makes no request to the store. *)
Lemma getPendingSales_outcome bid w :
  getPendingSales fault bid w
  = (Rejected match fst (initDB fault w) with
              | Resolved _ => Data_error
              | Rejected e => e
              end,
     snd (initDB fault w)).
Proof.
  unfold getPendingSales, bind. destruct (initDB fault w) as [[u|e] w1]; reflexivity.
Qed.

Lemma deleteSyncedSales_outcome w :
  deleteSyncedSales fault w
  = (Rejected match fst (initDB fault w) with
              | Resolved _ => Data_error
              | Rejected e => e
              end,
     snd (initDB fault w)).
Proof.
  unfold deleteSyncedSales, bind. destruct (initDB fault w) as [[u|e] w1]; reflexivity.
Qed.

Section Callback.

Context {R X : Type}.
Variable submit : Sale.t -> Async R X.

(** An online synchronisation gets no further than the read of the index:
    the outer [catch] answers {synced: 0, failed: 0}. *)
Lemma syncPendingSales_online bid w r :
  isOnline w = true ->
  syncPendingSales fault submit bid (w, r)
  = (Resolved {| tally_synced := 0; tally_failed := 0 |}, (snd (initDB fault w), r)).
Proof.
  intros Hon. unfold syncPendingSales, try_catch, bind, on_fst. cbn [fst snd].
  rewrite Hon, getPendingSales_outcome. reflexivity.
Qed.

End Callback.

End IndexFacts.

(** C3: the accounting of partial failures is never reached.  Online,
    whatever the store holds and whatever the callback would answer,
    [syncPendingSales] resolves with {synced: 0, failed: 0}: the read of
    the index raises before the loop, so the callback is not called, the
    backend is as it was, and every record is still in the store,
    unchanged. *)
Theorem syncPendingSales_online_submits_nothing :
  forall (fault : nat -> bool) (R X : Type) (submit : Sale.t -> Async R X)
         (businessId : option string) (w : Browser) (r : R),
    isOnline w = true ->
    exists w',
      syncPendingSales fault submit businessId (w, r)
      = (Resolved {| tally_synced := 0; tally_failed := 0 |}, (w', r))
      /\ pendingSales w' = pendingSales w
      /\ onLine w' = onLine w
      /\ submitted (trace w') = submitted (trace w).
Proof.
  intros fault R X submit bid w r Hon.
  exists (snd (initDB fault w)).
  split; [apply syncPendingSales_online, Hon|].
  split; [apply initDB_store|]. apply initDB_step.
Qed.

(** C7: [deleteSyncedSales] removes nothing.  Whatever the store holds and
    whatever the engine answers, the store after the call is the store
    before it: the read of the index for [true] raises before any delete
    request is made, so every record whose flag is true is still there. *)
Theorem deleteSyncedSales_removes_nothing :
  forall (fault : nat -> bool) (w : Browser),
    pendingSales (snd (deleteSyncedSales fault w)) = pendingSales w
    /\ (forall p, In p (pendingSales w) -> synced p = true ->
                  In p (pendingSales (snd (deleteSyncedSales fault w)))).
Proof.
  intros fault w. rewrite deleteSyncedSales_outcome. cbn [snd].
  split; [apply initDB_store|].
  intros p Hp _. rewrite initDB_store. exact Hp.
Qed.

(** C5: while [isOnline()] is false, [syncPendingSales] resolves at once
    with {synced: 0, failed: 0} and leaves the browser and the backend as
    they were: the store and every record in it are unchanged, no request
    was made to the storage engine (the queue was not read) and the submit
    callback was not called (the trace is unchanged). *)
Theorem syncPendingSales_offline_does_nothing :
  forall (fault : nat -> bool) (R X : Type) (submit : Sale.t -> Async R X)
         (businessId : option string) (w : Browser) (r : R),
    isOnline w = false ->
    syncPendingSales fault submit businessId (w, r)
    = (Resolved {| tally_synced := 0; tally_failed := 0 |}, (w, r)).
Proof.
  intros fault R X submit bid w r Hoff.
  unfold syncPendingSales. cbn [fst]. rewrite Hoff. reflexivity.
Qed.

(** C6: on a storage engine that answers its requests, [markSaleAsSynced]
    resolves for every store and every key, a second call leaves the store
    as the first call left it, and a call on a record already synchronised
    or on a key with no record leaves the store unchanged. *)
Theorem markSaleAsSynced_idempotent :
  forall (fault : nat -> bool) (w : Browser) (saleId : string),
    healthy fault ->
    exists w1 w2,
      markSaleAsSynced fault saleId w = (Resolved tt, w1)
      /\ markSaleAsSynced fault saleId w1 = (Resolved tt, w2)
      /\ pendingSales w2 = pendingSales w1
      /\ (forall s, store_get saleId (pendingSales w) = Some s -> synced s = true ->
                    pendingSales w1 = pendingSales w)
      /\ (store_get saleId (pendingSales w) = None -> pendingSales w1 = pendingSales w).
Proof.
  intros fault w k Hf.
  destruct (markSaleAsSynced_healthy fault Hf k w) as (w1 & E1 & Hs1 & _).
  destruct (markSaleAsSynced_healthy fault Hf k w1) as (w2 & E2 & Hs2 & _).
  exists w1, w2. split; [exact E1|]. split; [exact E2|]. split; [|split].
  - rewrite Hs2, Hs1. apply mark_in_store_twice.
  - intros s Hg Hs. rewrite Hs1. apply (mark_in_store_synced k _ s Hg Hs).
  - intros Hg. rewrite Hs1. apply mark_in_store_absent, Hg.
Qed.

(* ================================================================== *)
(** * Capture while offline                                             *)
(* ================================================================== *)

Section CaptureFacts.

Variable fault : nat -> bool.
Hypothesis Hfault : healthy fault.

Lemma has_key_app k l l' : has_key k (l ++ l') = has_key k l || has_key k l'.
Proof. unfold has_key. apply existsb_app. Qed.

Lemma storeSaleOffline_healthy rd s w :
  has_key (offline_id rd) (pendingSales w) = false ->
  exists w',
    storeSaleOffline fault rd s w = (Resolved (offline_id rd), w')
    /\ pendingSales w' = pendingSales w ++ [saleRecord_of (rd, s)]
    /\ storage_step w w'.
Proof.
  intros Hk. unfold storeSaleOffline, bind. rewrite initDB_healthy by exact Hfault.
  rewrite Hfault. unfold store_add. cbn [id pendingSales record_event].
  rewrite opened_store, Hk.
  eexists. split; [reflexivity|]. split; [reflexivity|].
  destruct (opened_step w) as [H1 H2]. split.
  - exact H1.
  - cbn [trace set_pendingSales record_event]. rewrite submitted_app, H2.
    simpl. apply app_nil_r.
Qed.

Lemma capture_all_healthy batch :
  forall w,
    NoDup (map (fun x => offline_id (fst x)) batch) ->
    (forall x, In x batch -> has_key (offline_id (fst x)) (pendingSales w) = false) ->
    exists w',
      capture_all fault batch w
      = (Resolved (map (fun x => offline_id (fst x)) batch), w')
      /\ pendingSales w' = pendingSales w ++ map saleRecord_of batch
      /\ storage_step w w'.
Proof.
  induction batch as [|[rd s] rest IH]; intros w Hnd Hfresh.
  - exists w. simpl. rewrite app_nil_r. unfold storage_step. auto.
  - simpl in Hnd. inversion Hnd as [|? ? Hnotin Hnd']; subst.
    destruct (storeSaleOffline_healthy rd s w) as (w1 & E1 & Hs1 & H11 & H12).
    { apply (Hfresh (rd, s)). left. reflexivity. }
    destruct (IH w1 Hnd') as (w' & E & Hs & H1 & H2).
    { intros x Hx. rewrite Hs1, has_key_app, (Hfresh x (or_intror Hx)).
      unfold has_key. cbn [existsb saleRecord_of id fst orb].
      destruct (String.eqb (offline_id rd) (offline_id (fst x))) eqn:Ee; [|reflexivity].
      apply String.eqb_eq in Ee. exfalso. apply Hnotin. rewrite Ee.
      apply (in_map (fun x => offline_id (fst x))), Hx. }
    exists w'. cbn [capture_all]. unfold bind. rewrite E1, E. unfold ret.
    split; [reflexivity|]. split.
    + rewrite Hs, Hs1, <- app_assoc. reflexivity.
    + unfold storage_step in *. split; congruence.
Qed.

End CaptureFacts.

Lemma store_get_app_absent (k : string) (l l' : list PendingSale) :
  has_key k l = false -> store_get k (l ++ l') = store_get k l'.
Proof.
  unfold has_key, store_get. induction l as [|p l IH]; simpl; [reflexivity|].
  destruct (String.eqb (id p) k); [discriminate | exact IH].
Qed.

Lemma store_get_saleRecord (batch : list (Readings * Sale.t)) (x : Readings * Sale.t) :
  NoDup (map (fun x => offline_id (fst x)) batch) ->
  In x batch ->
  store_get (offline_id (fst x)) (map saleRecord_of batch) = Some (saleRecord_of x).
Proof.
  induction batch as [|y rest IH]; intros Hnd Hin; [destruct Hin|].
  simpl in Hnd. inversion Hnd as [|? ? Hnotin Hnd']; subst.
  unfold store_get. cbn [map find saleRecord_of id].
  destruct Hin as [->|Hin].
  - rewrite String.eqb_refl. reflexivity.
  - destruct (String.eqb (offline_id (fst y)) (offline_id (fst x))) eqn:E.
    + apply String.eqb_eq in E. exfalso. apply Hnotin. rewrite E.
      apply (in_map (fun x => offline_id (fst x))), Hin.
    + apply IH; assumption.
Qed.

(** C4: the queue is not drained.  N sales are stored offline on an engine
    that answers, under keys that are new; the connection returns and
    [syncPendingSales] is called with any callback, one that resolves on
    every sale included.  The call resolves with {synced: 0, failed: 0};
    the callback has not been called, so the backend is as it was; and
    each of the N records is still in the store as it was written, with
    [synced = false]. *)
Theorem syncPendingSales_leaves_the_queue_as_it_was :
  forall (fault : nat -> bool) (R X : Type) (submit : Sale.t -> Async R X)
         (businessId : option string) (w : Browser) (r : R)
         (batch : list (Readings * Sale.t)),
    healthy fault ->
    isOnline w = false ->
    NoDup (map (fun x => offline_id (fst x)) batch) ->
    (forall x, In x batch -> has_key (offline_id (fst x)) (pendingSales w) = false) ->
    exists w1 w2,
      capture_all fault batch w
      = (Resolved (map (fun x => offline_id (fst x)) batch), w1)
      /\ syncPendingSales fault submit businessId (set_onLine true w1, r)
         = (Resolved {| tally_synced := 0; tally_failed := 0 |}, (w2, r))
      /\ submitted (trace w2) = submitted (trace w)
      /\ (forall x, In x batch ->
                    store_get (offline_id (fst x)) (pendingSales w2) = Some (saleRecord_of x)
                    /\ synced (saleRecord_of x) = false).
Proof.
  intros fault R X submit bid w r batch Hf Hoff Hnd Hfresh.
  destruct (capture_all_healthy fault Hf batch w Hnd Hfresh) as (w1 & E1 & Hs1 & H11 & H12).
  exists w1, (snd (initDB fault (set_onLine true w1))).
  split; [exact E1|]. split; [apply syncPendingSales_online; reflexivity|].
  destruct (initDB_step fault (set_onLine true w1)) as [_ Htr].
  split; [rewrite Htr; exact H12|].
  intros x Hx. split; [|reflexivity].
  rewrite initDB_store. cbn [pendingSales set_onLine]. rewrite Hs1.
  rewrite store_get_app_absent by (apply Hfresh, Hx).
  apply store_get_saleRecord; assumption.
Qed.

(* ================================================================== *)
(** * Failures of the storage engine during a synchronisation           *)
(* ================================================================== *)

Section SyncFailures.

Variable fault : nat -> bool.
Context {R X : Type}.
Variable submit : Sale.t -> Async R X.


End SyncFailures.


(* ================================================================== *)
(** * The sale writer and the capture handler                           *)
(* ================================================================== *)

Section WriterFacts.



End WriterFacts.

Section CaptureHandler.

Variable fault : nat -> bool.
Variable parseFloat : string -> option Q.
Variable parseInt : string -> option Z.



End CaptureHandler.



(* ================================================================== *)
(** * The scenarios, run                                                *)
(* ================================================================== *)

Import Scenario.

Lemma no_fault_healthy : healthy no_fault.
Proof. intros n. reflexivity. Defined.

(** Scenario B: the queue holds three unsynchronised records with the VAT
    amounts 9.00, 13.50 and 3.60. *)
Example scenario_B_queue :
  map (fun p => (synced p, Sale.vatAmount (sale p))) (pendingSales (fst scenario_B))
  = [(false, 900 # 100); (false, 1350 # 100); (false, 360 # 100)].
Proof. vm_compute. reflexivity. Qed.



(** Scenario C on the code: the queue of scenario B, online, and a callback
    that would reject the sale of 75 and accept the two others.  The call
    resolves with {synced: 0, failed: 0}, the backend has no sale, and the
    three records are in the store, unsynchronised. *)
Lemma syncPendingSales_online_submits_nothing_witness :
  map (fun p => is_resolved (fst (failing_on_75 (firestoreSale p) backend)))
      (pendingSales (fst scenario_B))
  = [true; false; true]
  /\ exists w',
       syncPendingSales no_fault failing_on_75 (Some shop)
                        (set_onLine true (fst scenario_B), backend)
       = (Resolved {| tally_synced := 0; tally_failed := 0 |}, (w', backend))
       /\ pendingSales w' = pendingSales (fst scenario_B)
       /\ map synced (pendingSales w') = [false; false; false]
       /\ sales backend = [].
Proof.
  split; [vm_compute; reflexivity|].
  destruct (syncPendingSales_online_submits_nothing
              no_fault Firestore bool failing_on_75 (Some shop)
              (set_onLine true (fst scenario_B)) backend eq_refl)
    as (w' & E & Hs & _).
  exists w'. split; [exact E|]. split; [exact Hs|].
  split; [rewrite Hs; vm_compute; reflexivity | reflexivity].
Defined.

(** Scenario B then a synchronisation with the page's callback, which
    would write every sale: three records stored, none delivered. *)
Lemma syncPendingSales_leaves_the_queue_as_it_was_witness :
  exists w1 w2,
    capture_all no_fault batch_B offline_browser
    = (Resolved ["offline-1001-0.5"; "offline-1002-0.5"; "offline-1003-0.5"], w1)
    /\ syncPendingSales no_fault (page_submitter shop clerk) (Some shop)
                        (set_onLine true w1, backend)
       = (Resolved {| tally_synced := 0; tally_failed := 0 |}, (w2, backend))
    /\ submitted (trace w2) = []
    /\ map (fun k => option_map synced (store_get k (pendingSales w2)))
           ["offline-1001-0.5"; "offline-1002-0.5"; "offline-1003-0.5"]
       = [Some false; Some false; Some false]
    /\ sales backend = [].
Proof.
  assert (Hnd : NoDup (map (fun x => offline_id (fst x)) batch_B)).
  { vm_compute. repeat (constructor; [simpl; intuition discriminate|]). constructor. }
  destruct (syncPendingSales_leaves_the_queue_as_it_was
              no_fault Firestore bool (page_submitter shop clerk) (Some shop)
              offline_browser backend batch_B
              no_fault_healthy eq_refl Hnd (fun x _ => eq_refl))
    as (w1 & w2 & E1 & E2 & Htr & Hq).
  exists w1, w2. split; [exact E1|]. split; [exact E2|]. split; [exact Htr|].
  split; [|reflexivity].
  destruct (Hq (readings_at "1001", sale_of 50 "1001") (or_introl eq_refl)) as [H1 _].
  destruct (Hq (readings_at "1002", sale_of 75 "1002") (or_intror (or_introl eq_refl)))
    as [H2 _].
  destruct (Hq (readings_at "1003", sale_of 20 "1003")
               (or_intror (or_intror (or_introl eq_refl)))) as [H3 _].
  cbn [map]. change (offline_id (fst (readings_at "1001", sale_of 50 "1001")))
    with "offline-1001-0.5" in H1.
  change (offline_id (fst (readings_at "1002", sale_of 75 "1002")))
    with "offline-1002-0.5" in H2.
  change (offline_id (fst (readings_at "1003", sale_of 20 "1003")))
    with "offline-1003-0.5" in H3.
  rewrite H1, H2, H3. reflexivity.
Defined.

(** Scenario D on the code: from the store with two synchronised records
    and one unsynchronised, the purge leaves all three. *)
Lemma deleteSyncedSales_removes_nothing_witness :
  map synced (pendingSales two_synced_one_pending) = [true; false; true]
  /\ map synced (pendingSales (snd (deleteSyncedSales no_fault two_synced_one_pending)))
     = [true; false; true].
Proof.
  split; [vm_compute; reflexivity|].
  destruct (deleteSyncedSales_removes_nothing no_fault two_synced_one_pending) as [Hs _].
  rewrite Hs. vm_compute. reflexivity.
Defined.




Lemma syncPendingSales_offline_does_nothing_witness :
  syncPendingSales no_fault (page_submitter shop clerk) (Some shop)
                   (fst scenario_B, snd scenario_B)
  = (Resolved {| tally_synced := 0; tally_failed := 0 |}, (fst scenario_B, snd scenario_B)).
Proof.
  apply (syncPendingSales_offline_does_nothing
           no_fault Firestore bool (page_submitter shop clerk) (Some shop)
           (fst scenario_B) (snd scenario_B)).
  vm_compute. reflexivity.
Defined.

Lemma markSaleAsSynced_idempotent_witness :
  exists w1 w2,
    markSaleAsSynced no_fault "offline-1002-0.5" (fst scenario_B) = (Resolved tt, w1)
    /\ markSaleAsSynced no_fault "offline-1002-0.5" w1 = (Resolved tt, w2)
    /\ pendingSales w2 = pendingSales w1.
Proof.
  destruct (markSaleAsSynced_idempotent no_fault (fst scenario_B) "offline-1002-0.5"
                                        no_fault_healthy)
    as (w1 & w2 & E1 & E2 & Hs & _).
  exists w1, w2. split; [exact E1|]. split; [exact E2 | exact Hs].
Defined.

(** In binary64 arithmetic: calculateTax(100, 0.18) is
    {subtotal: 100, vatAmount: 18, total: 118}. *)
Example binary64_calculateTax_100_018 :
  Binary64.calculateTax Binary64.f_100 Binary64.f_0_18
  = (Some Binary64.f_100, Some (Binary64.of_hundredths 1800),
     Some (Binary64.of_hundredths 11800)).
Proof. vm_compute. reflexivity. Qed.

(** In binary64 arithmetic: calculateTax(100, 0.2) is
    {subtotal: 100, vatAmount: 20, total: 120}. *)
Example binary64_calculateTax_100_02 :
  Binary64.calculateTax Binary64.f_100 Binary64.f_0_2
  = (Some Binary64.f_100, Some (Binary64.of_hundredths 2000),
     Some (Binary64.of_hundredths 12000)).
Proof. vm_compute. reflexivity. Qed.

(** Where the exact model and binary64 part: 1.25 * 0.18 is the tie 0.225
    on rationals, rounded to 0.23, and is just below it in binary64,
    rounded to 0.22; the totals agree on 1.48.  In binary64 the total of
    an amount of whole hundredths is therefore not always the subtotal
    plus the VAT returned. *)
Example binary64_calculateTax_125_018 :
  Binary64.calculateTax (Binary64.of_hundredths 125) Binary64.f_0_18
  = (Some (Binary64.of_hundredths 125), Some (Binary64.of_hundredths 22),
     Some (Binary64.of_hundredths 148))
  /\ calculateTax (125 # 100) (Some (18 # 100))
     = {| subtotal := 125 # 100; vatAmount := 23 # 100; total := 148 # 100 |}.
Proof. split; vm_compute; reflexivity. Qed.

(** In binary64 arithmetic, where 257/256 and 0.5 and every intermediate
    result are exact: the total returned is 1.51, and the rounded subtotal
    1.00 plus the rounded VAT 0.50 is 1.50. *)
Example binary64_total_is_not_the_sum_of_rounded_parts :
  Binary64.calculateTax Binary64.f_257_256 Binary64.f_0_5
  = (Some (Binary64.of_hundredths 100), Some (Binary64.of_hundredths 50),
     Some (Binary64.of_hundredths 151))
  /\ PrimFloat.add (Binary64.of_hundredths 100) (Binary64.of_hundredths 50)
     = Binary64.of_hundredths 150
  /\ PrimFloat.eqb (Binary64.of_hundredths 151) (Binary64.of_hundredths 150) = false.
Proof. vm_compute. repeat split. Qed.

(* ================================================================== *)
(** * Further properties of the tax calculator                          *)
(* ================================================================== *)

Section MoreTaxFacts.

Lemma toFixed2_opp (x : Q) : toFixed2 (- x) = (- toFixed2 x)%Z.
Proof.
  unfold toFixed2.
  destruct (Qle_bool 0 x) eqn:Ex, (Qle_bool 0 (- x)) eqn:En.
  - apply Qle_bool_iff in Ex. apply Qle_bool_iff in En.
    assert (E0 : x == 0) by lra.
    rewrite (nearest_hundredth_comp (- x) 0) by lra.
    rewrite (nearest_hundredth_comp x 0) by lra. reflexivity.
  - rewrite (nearest_hundredth_comp (- - x) x) by lra. reflexivity.
  - rewrite Z.opp_involutive. reflexivity.
  - exfalso.
    assert (Hx : ~ 0 <= x) by (rewrite <- Qle_bool_iff; congruence).
    assert (Hn : ~ 0 <= - x) by (rewrite <- Qle_bool_iff; congruence).
    lra.
Qed.

Lemma round2_opp (x : Q) : round2 (- x) = - round2 x.
Proof. unfold round2. rewrite toFixed2_opp. reflexivity. Qed.

Lemma toFixed2_whole (n : Z) : toFixed2 (n # 100) = n.
Proof.
  destruct (Z_le_gt_dec 0 n) as [Hn|Hn].
  - rewrite toFixed2_nonneg by (unfold Qle; simpl; lia).
    apply nearest_hundredth_whole.
  - replace (n # 100) with (- ((- n) # 100)) by (unfold Qopp; simpl; f_equal; lia).
    rewrite toFixed2_opp, toFixed2_nonneg by (unfold Qle; simpl; lia).
    rewrite nearest_hundredth_whole. lia.
Qed.

End MoreTaxFacts.

(** X1: the amounts [calculateTax] returns for a negated subtotal are the
    negated amounts of the subtotal: rounding is done on the magnitude, so
    a refund mirrors the sale to the hundredth. *)
Theorem calculateTax_negated_subtotal (s r : Q) :
  subtotal (calculateTax (- s) (Some r)) = - subtotal (calculateTax s (Some r))
  /\ vatAmount (calculateTax (- s) (Some r)) = - vatAmount (calculateTax s (Some r))
  /\ total (calculateTax (- s) (Some r)) = - total (calculateTax s (Some r)).
Proof.
  unfold calculateTax. cbn [subtotal vatAmount total]. split; [|split].
  - apply round2_opp.
  - rewrite <- round2_opp. apply round2_comp. ring.
  - rewrite <- round2_opp. apply round2_comp. ring.
Qed.

(** X3: for subtotals 0 <= s1 <= s2 and rates 0 <= r1 <= r2, none of the
    three amounts [calculateTax] returns gets smaller from (s1, r1) to
    (s2, r2); and for a rate in [0,1] the VAT returned lies between 0 and
    the returned subtotal. *)
Theorem calculateTax_monotone (s1 s2 r1 r2 : Q) :
  0 <= s1 -> s1 <= s2 -> 0 <= r1 -> r1 <= r2 ->
  let t1 := calculateTax s1 (Some r1) in
  let t2 := calculateTax s2 (Some r2) in
  subtotal t1 <= subtotal t2
  /\ vatAmount t1 <= vatAmount t2
  /\ total t1 <= total t2
  /\ 0 <= vatAmount t1
  /\ (r1 <= 1 -> vatAmount t1 <= subtotal t1).
Proof.
  intros Hs1 Hs Hr1 Hr. cbv zeta. unfold calculateTax. cbn [subtotal vatAmount total].
  assert (H1 : 0 <= s1 * r1) by (apply Qmult_le_0_compat; assumption).
  assert (H2 : s1 * r1 <= s2 * r2).
  { apply Qle_trans with (s1 * r2).
    - rewrite !(Qmult_comm s1). apply Qmult_le_compat_r; assumption.
    - apply Qmult_le_compat_r; lra. }
  split; [apply round2_mono; lra|]. split; [apply round2_mono; lra|].
  split; [apply round2_mono; lra|]. split.
  - unfold round2. rewrite toFixed2_nonneg by exact H1.
    pose proof (nearest_hundredth_nonneg _ H1). unfold Qle; simpl; lia.
  - intros Hle. apply round2_mono; [exact H1|].
    rewrite <- (Qmult_1_r s1) at 2. rewrite !(Qmult_comm s1).
    apply Qmult_le_compat_r; assumption.
Qed.

Lemma calculateTax_monotone_witness :
  vatAmount (calculateTax 50 (Some (18 # 100))) <= vatAmount (calculateTax 75 (Some (20 # 100)))
  /\ total (calculateTax 50 (Some (18 # 100))) <= total (calculateTax 75 (Some (20 # 100))).
Proof.
  assert (H0 : 0 <= 50) by discriminate.
  assert (H1 : 50 <= 75) by discriminate.
  assert (H2 : 0 <= 18 # 100) by discriminate.
  assert (H3 : 18 # 100 <= 20 # 100) by discriminate.
  destruct (calculateTax_monotone 50 75 (18 # 100) (20 # 100) H0 H1 H2 H3)
    as (_ & Hv & Ht & _).
  split; [exact Hv | exact Ht].
Defined.

(** X4: the amounts [calculateTax] returns are whole hundredths and are
    left unchanged by another rounding: rounding twice is rounding once,
    for every number, negative ones included. *)
Theorem round2_idempotent (x : Q) :
  round2 (round2 x) = round2 x /\ whole_hundredths (round2 x).
Proof.
  split.
  - unfold round2. rewrite toFixed2_whole. reflexivity.
  - exists (toFixed2 x). reflexivity.
Qed.

(* ================================================================== *)
(** * Further properties of the offline service                         *)
(* ================================================================== *)

Section MoreStoreFacts.

Lemma store_get_put_other (p : PendingSale) (k : string) (l : list PendingSale) :
  id p <> k -> store_get k (store_put p l) = store_get k l.
Proof.
  intros Hk. unfold store_get.
  assert (Hp : String.eqb (id p) k = false) by (apply String.eqb_neq; exact Hk).
  induction l as [|q l IH]; simpl.
  - rewrite Hp. reflexivity.
  - destruct (String.eqb (id q) (id p)) eqn:E; simpl.
    + apply String.eqb_eq in E. rewrite E, Hp. reflexivity.
    + destruct (String.eqb (id q) k); [reflexivity | exact IH].
Qed.

Lemma mark_in_store_keys (k : string) (l : list PendingSale) :
  map id (mark_in_store k l) = map id l.
Proof.
  unfold mark_in_store. destruct (store_get k l) as [s|] eqn:E; [|reflexivity].
  rewrite store_put_keys. cbn [mark_synced id].
  destruct (store_get_id k l s E) as [Hk Hin].
  assert (Hh : has_key (id s) l = true).
  { apply has_key_true. apply in_map, Hin. }
  rewrite Hh. reflexivity.
Qed.

Lemma mark_in_store_get (k k' : string) (l : list PendingSale) :
  store_get k' (mark_in_store k l)
  = if String.eqb k' k
    then option_map mark_synced (store_get k l)
    else store_get k' l.
Proof.
  unfold mark_in_store. destruct (String.eqb k' k) eqn:E.
  - apply String.eqb_eq in E. subst k'.
    destruct (store_get k l) as [s|] eqn:Es; cbn [option_map]; [|exact Es].
    destruct (store_get_id k l s Es) as [Hk _].
    rewrite <- Hk at 1. rewrite <- (mark_synced_id s). apply store_get_put.
  - apply String.eqb_neq in E.
    destruct (store_get k l) as [s|] eqn:Es; [|reflexivity].
    destruct (store_get_id k l s Es) as [Hk _].
    apply store_get_put_other. cbn [mark_synced id]. congruence.
Qed.

End MoreStoreFacts.

(** X5: [getPendingSalesCount] is always 0.  Whatever the store holds and
    whatever the engine answers, it resolves with 0 and leaves the store
    as it was: [getPendingSales] rejects, and the [catch] answers 0. *)
Theorem getPendingSalesCount_is_always_zero :
  forall (fault : nat -> bool) (businessId : option string) (w : Browser),
    exists w',
      getPendingSalesCount fault businessId w = (Resolved 0%nat, w')
      /\ pendingSales w' = pendingSales w
      /\ onLine w' = onLine w.
Proof.
  intros fault bid w. exists (snd (initDB fault w)).
  split.
  - unfold getPendingSalesCount, try_catch, bind. rewrite getPendingSales_outcome.
    reflexivity.
  - split; [apply initDB_store | apply initDB_step].
Qed.

(** X8: [getPendingSales] rejects on every store and reads no record: it
    rejects with the error of [initDB] when the database cannot be opened
    and with DataError otherwise, raised by [index.getAll(false)] before a
    request is made; with the database handle cached the browser is left
    exactly as it was. *)
Theorem getPendingSales_always_rejects :
  forall (fault : nat -> bool) (businessId : option string) (w : Browser),
    exists e w',
      getPendingSales fault businessId w = (Rejected e, w')
      /\ pendingSales w' = pendingSales w
      /\ onLine w' = onLine w
      /\ (forall w0, initDB fault w = (Resolved tt, w0) -> e = Data_error /\ w' = w0)
      /\ (db w = true -> e = Data_error /\ w' = w).
Proof.
  intros fault bid w. rewrite getPendingSales_outcome. eexists _, _.
  split; [reflexivity|]. split; [apply initDB_store|]. split; [apply initDB_step|].
  split.
  - intros w0 E. rewrite E. cbn [fst snd]. auto.
  - intros Hdb. unfold initDB. rewrite Hdb. cbn [fst snd]. auto.
Qed.

(** X6: with the database handle cached, [storeSaleOffline] resolves with
    the local identifier whatever the storage engine answers: when the
    engine fails the write, or the key is already in the store, the store
    is left as it was and the identifier is returned all the same. *)
Theorem storeSaleOffline_resolves_when_the_write_is_refused :
  forall (fault : nat -> bool) (rd : Readings) (saleData : Sale.t) (w : Browser),
    db w = true ->
    fault (List.length (trace w)) = true
    \/ has_key (offline_id rd) (pendingSales w) = true ->
    storeSaleOffline fault rd saleData w
    = (Resolved (offline_id rd), record_event (Add_record (offline_id rd)) w)
    /\ pendingSales (snd (storeSaleOffline fault rd saleData w)) = pendingSales w.
Proof.
  intros fault rd s w Hdb Href.
  assert (E : storeSaleOffline fault rd s w
              = (Resolved (offline_id rd), record_event (Add_record (offline_id rd)) w)).
  { unfold storeSaleOffline, bind, initDB. rewrite Hdb. cbn [id].
    destruct (fault (List.length (trace w))); [reflexivity|].
    destruct Href as [Hf|Hk]; [discriminate|].
    unfold store_add. cbn [id]. rewrite Hk. reflexivity. }
  split; [exact E|]. rewrite E. reflexivity.
Qed.

Lemma storeSaleOffline_resolves_when_the_write_is_refused_witness :
  fst (storeSaleOffline no_fault (readings_at "1001") (sale_of 99 "1001") (fst scenario_B))
  = Resolved "offline-1001-0.5"
  /\ pendingSales (snd (storeSaleOffline no_fault (readings_at "1001") (sale_of 99 "1001")
                                         (fst scenario_B)))
     = pendingSales (fst scenario_B).
Proof.
  destruct (storeSaleOffline_resolves_when_the_write_is_refused
              no_fault (readings_at "1001") (sale_of 99 "1001") (fst scenario_B)
              eq_refl (or_intror eq_refl)) as [E Hs].
  split; [rewrite E; reflexivity | exact Hs].
Defined.

(** X7: on an engine that answers, [markSaleAsSynced] changes the record
    of its key and nothing else: the keys of the store and their order are
    the same, a lookup of the key gives the old record with the flag set
    (its sale and its dates untouched), and a lookup of any other key gives
    what it gave before. *)
Theorem markSaleAsSynced_changes_one_record :
  forall (fault : nat -> bool) (w : Browser) (saleId : string),
    healthy fault ->
    exists w',
      markSaleAsSynced fault saleId w = (Resolved tt, w')
      /\ map id (pendingSales w') = map id (pendingSales w)
      /\ store_get saleId (pendingSales w')
         = option_map mark_synced (store_get saleId (pendingSales w))
      /\ (forall k, k <> saleId ->
                    store_get k (pendingSales w') = store_get k (pendingSales w)).
Proof.
  intros fault w k Hf.
  destruct (markSaleAsSynced_healthy fault Hf k w) as (w' & E & Hs & _).
  exists w'. split; [exact E|]. rewrite Hs. split; [apply mark_in_store_keys|]. split.
  - rewrite mark_in_store_get, String.eqb_refl. reflexivity.
  - intros k' Hk. rewrite mark_in_store_get.
    apply String.eqb_neq in Hk. rewrite Hk. reflexivity.
Qed.

Lemma markSaleAsSynced_changes_one_record_witness :
  exists w',
    markSaleAsSynced no_fault "offline-1002-0.5" (fst scenario_B) = (Resolved tt, w')
    /\ store_get "offline-1002-0.5" (pendingSales w') = Some (mark_synced record_75)
    /\ store_get "offline-1001-0.5" (pendingSales w')
       = store_get "offline-1001-0.5" (pendingSales (fst scenario_B)).
Proof.
  destruct (markSaleAsSynced_changes_one_record
              no_fault (fst scenario_B) "offline-1002-0.5" no_fault_healthy)
    as (w' & E & _ & Hk & Ho).
  exists w'. split; [exact E|]. split.
  - rewrite Hk. vm_compute. reflexivity.
  - apply Ho. discriminate.
Defined.

(* ================================================================== *)
(** * Further properties of the sale writer and the capture handler     *)
(* ================================================================== *)

Section MoreWriterFacts.

Lemma addSale_outcome (saleData : Sale.t) (fs : Firestore) :
  addSale saleData fs
  = if reachable fs
    then match lookup_business (Sale.businessId saleData) (businesses fs) with
         | Some b => (Resolved true,
                      with_sale (saleDoc_of saleData (rraVatRate b) (clock fs)) fs)
         | None => (Rejected Business_not_found, fs)
         end
    else (Rejected Backend_unavailable, fs).
Proof.
  unfold addSale, bind, getBusiness. destruct (reachable fs) eqn:Hr; [|reflexivity].
  destruct (lookup_business _ _) as [b|]; [|reflexivity].
  unfold addDoc_sales. rewrite Hr. reflexivity.
Qed.

End MoreWriterFacts.

(** X12: [addSale] writes one document or nothing.  It rejects exactly
    when the backend does not answer or has no business of that
    identifier ('Business not found'), and then the backend is left as it
    was; when it resolves, one document has been added at the end of the
    sales collection, with the business, user, items and payment method of
    the sale, and the businesses are untouched. *)
Theorem addSale_writes_one_document_or_nothing :
  forall (saleData : Sale.t) (fs : Firestore),
    (forall e fs',
        addSale saleData fs = (Rejected e, fs') ->
        fs' = fs
        /\ (reachable fs = false /\ e = Backend_unavailable
            \/ lookup_business (Sale.businessId saleData) (businesses fs) = None
               /\ e = Business_not_found))
    /\ (forall x fs',
          addSale saleData fs = (Resolved x, fs') ->
          exists d,
            sales fs' = sales fs ++ [d]
            /\ businesses fs' = businesses fs
            /\ SaleDoc.businessId d = Sale.businessId saleData
            /\ SaleDoc.recordedByUserId d = Sale.recordedByUserId saleData
            /\ SaleDoc.items d = Sale.items saleData
            /\ SaleDoc.paymentMethod d = Sale.paymentMethod saleData
            /\ SaleDoc.createdAt d = clock fs)
    /\ (reachable fs = false
        \/ lookup_business (Sale.businessId saleData) (businesses fs) = None ->
        exists e, addSale saleData fs = (Rejected e, fs)).
Proof.
  intros s fs. rewrite addSale_outcome. split; [|split].
  - intros e fs'. destruct (reachable fs).
    + destruct (lookup_business _ _); [discriminate|].
      intros E. injection E as <- <-. auto.
    + intros E. injection E as <- <-. auto.
  - intros x fs'. destruct (reachable fs); [|discriminate].
    destruct (lookup_business _ _) as [b|]; [|discriminate].
    intros E. injection E as _ <-. eexists. repeat split.
  - intros [Hr | Hb].
    + rewrite Hr. eauto.
    + rewrite Hb. destruct (reachable fs); eauto.
Qed.



(** X14: a form passes the checks of [handleRecordSale] only with a
    product name, a non-empty business selected, a price that parses to a
    number above 0 and a quantity that parses to an integer above 0; the
    sale built has that one item, a subtotal above 0 equal to price times
    quantity, and, for the payment method 'Custom', a non-empty trimmed
    method. *)
Theorem validate_accepts_only_positive_amounts :
  forall (parseFloat : string -> option Q) (parseInt : string -> option Z)
         (f : Form) (manual_now : string) (saleData : Sale.t),
    validate parseFloat parseInt f manual_now = inr saleData ->
    exists bid priceValue quantityValue,
      selectedBusinessId f = Some bid /\ bid <> ""
      /\ form_productName f <> ""
      /\ parseFloat (form_price f) = Some priceValue /\ 0 < priceValue
      /\ parseInt (form_quantity f) = Some quantityValue /\ (0 < quantityValue)%Z
      /\ saleData = saleData_of f bid manual_now priceValue quantityValue
      /\ Sale.businessId saleData = bid
      /\ List.length (Sale.items saleData) = 1%nat
      /\ Sale.subtotal saleData = priceValue * inject_Z quantityValue
      /\ 0 < Sale.subtotal saleData
      /\ (form_paymentMethod f = "Custom" -> Sale.paymentMethod saleData <> "").
Proof.
  intros pf pi f now s. unfold validate.
  destruct (empty (form_productName f)) eqn:En; [discriminate|].
  destruct (empty (form_price f)) eqn:Ep; [discriminate|]. cbn [orb].
  destruct (truthy (selectedBusinessId f)) eqn:Et; [|discriminate]. cbn [negb].
  destruct (selectedBusinessId f) as [bid|] eqn:Eb; [|discriminate].
  destruct (pf (form_price f)) as [price|] eqn:Epf; [|discriminate].
  destruct (Qle_bool price 0) eqn:Ele; [discriminate|].
  destruct (pi (form_quantity f)) as [qty|] eqn:Epi; [|discriminate].
  destruct (qty <=? 0)%Z eqn:Eq; [discriminate|].
  destruct (String.eqb (form_paymentMethod f) "Custom" && empty (trim (form_customPaymentMethod f)))
    eqn:Ec; [discriminate|].
  intros E. injection E as <-.
  assert (Hprice : 0 < price).
  { apply Qnot_le_lt. intros H. apply Qle_bool_iff in H. congruence. }
  assert (Hqty : (0 < qty)%Z) by (apply Z.leb_gt in Eq; exact Eq).
  exists bid, price, qty.
  split; [reflexivity|]. split.
  { cbn [truthy] in Et. apply negb_true_iff in Et. apply String.eqb_neq in Et. exact Et. }
  split.
  { unfold empty in En. apply String.eqb_neq in En. exact En. }
  split; [reflexivity|]. split; [exact Hprice|]. split; [reflexivity|]. split; [exact Hqty|].
  split; [reflexivity|]. split; [reflexivity|]. split; [reflexivity|].
  split; [reflexivity|]. split.
  - cbn [saleData_of Sale.subtotal]. apply Qmult_lt_0_compat; [exact Hprice|].
    unfold Qlt, inject_Z; simpl. lia.
  - intros Hc. cbn [saleData_of Sale.paymentMethod].
    assert (Ecc : String.eqb "Custom" "Custom" = true) by reflexivity.
    rewrite Hc, Ecc in Ec. rewrite Hc, Ecc. cbn [andb] in Ec.
    unfold empty in Ec. apply String.eqb_neq in Ec. exact Ec.
Qed.

Lemma validate_accepts_only_positive_amounts_witness :
  exists bid priceValue quantityValue,
    selectedBusinessId (form_for "50" (18 # 100)) = Some bid
    /\ parseFloat "50" = Some priceValue /\ 0 < priceValue
    /\ parseInt "1" = Some quantityValue /\ (0 < quantityValue)%Z
    /\ 0 < Sale.subtotal (sale_of 50 "1001").
Proof.
  destruct (validate_accepts_only_positive_amounts
              parseFloat parseInt (form_for "50" (18 # 100)) "1001" (sale_of 50 "1001")
              eq_refl)
    as (bid & price & qty & Hb & _ & _ & Hp & Hp0 & Hq & Hq0 & _ & _ & _ & _ & Hs & _).
  exists bid, price, qty. repeat split; assumption.
Defined.

(** X15: an online capture that fails is not queued.  When the form passes
    the checks, the browser is online and [addSale] rejects, the handler
    shows the error toast and leaves the backend and the browser, queue
    included, as they were: there is no fallback to the offline store. *)
Theorem handleRecordSale_online_failure_is_not_queued :
  forall (fault : nat -> bool) (parseFloat : string -> option Q)
         (parseInt : string -> option Z) (f : Form) (manual_now : string)
         (rd : Readings) (w : Browser) (fs : Firestore) (saleData : Sale.t),
    validate parseFloat parseInt f manual_now = inr saleData ->
    isOnline w = true ->
    reachable fs = false
    \/ lookup_business (Sale.businessId saleData) (businesses fs) = None ->
    exists e,
      fst (addSale saleData fs) = Rejected e
      /\ handleRecordSale fault parseFloat parseInt f manual_now rd (w, fs)
         = (failure_toast e, (w, fs)).
Proof.
  intros fault pf pi f now rd w fs s Hv Hon Hbad.
  unfold handleRecordSale. rewrite Hv. cbn [fst]. rewrite Hon.
  unfold on_snd. cbn [fst snd]. rewrite addSale_outcome.
  destruct Hbad as [Hr | Hb].
  - rewrite Hr. eexists. split; reflexivity.
  - rewrite Hb. destruct (reachable fs); eexists; split; reflexivity.
Qed.

Lemma handleRecordSale_online_failure_is_not_queued_witness :
  handleRecordSale no_fault parseFloat parseInt (form_for "50" (18 # 100)) "1001"
                   (readings_at "1001")
                   (set_onLine true offline_browser, Cases.no_business)
  = (toast_error "Business not found", (set_onLine true offline_browser, Cases.no_business)).
Proof.
  destruct (handleRecordSale_online_failure_is_not_queued
              no_fault parseFloat parseInt (form_for "50" (18 # 100)) "1001"
              (readings_at "1001") (set_onLine true offline_browser) Cases.no_business
              (sale_of 50 "1001") eq_refl eq_refl (or_intror eq_refl))
    as (e & He & E).
  rewrite E. vm_compute in He. injection He as <-. reflexivity.
Defined.

(* ================================================================== *)
(** * Queries and sums                                                  *)
(* ================================================================== *)

Section QueryFacts.

Lemma insert_desc_perm d l : Permutation (insert_desc d l) (d :: l).
Proof.
  induction l as [|x l IH]; simpl; [reflexivity|].
  destruct (SaleDoc.createdAt x <? SaleDoc.createdAt d)%Z; [reflexivity|].
  rewrite IH. apply perm_swap.
Qed.

Lemma newest_first_perm l : Permutation (newest_first l) l.
Proof.
  induction l as [|d l IH]; simpl; [reflexivity|].
  rewrite insert_desc_perm. constructor. exact IH.
Qed.

Lemma insert_desc_sorted d l :
  Sorted newer_or_same l -> Sorted newer_or_same (insert_desc d l).
Proof.
  induction l as [|x l IH]; intros Hs; simpl.
  - repeat constructor.
  - destruct (SaleDoc.createdAt x <? SaleDoc.createdAt d)%Z eqn:E.
    + constructor; [exact Hs|]. constructor. unfold newer_or_same.
      apply Z.ltb_lt in E. lia.
    + apply Z.ltb_ge in E. inversion Hs as [|? ? Hs' Hd]; subst.
      constructor; [apply IH, Hs'|].
      destruct l as [|y l']; simpl.
      * constructor. exact E.
      * destruct (SaleDoc.createdAt y <? SaleDoc.createdAt d)%Z.
        -- constructor. exact E.
        -- inversion Hd; subst. constructor. assumption.
Qed.

Lemma newest_first_sorted l : Sorted newer_or_same (newest_first l).
Proof.
  induction l as [|d l IH]; simpl; [constructor|]. apply insert_desc_sorted, IH.
Qed.

End QueryFacts.

(** X16: on a backend that answers, [getSalesByDate] resolves with exactly
    the sales of the business created between the two dates, both ends
    included, each as often as the collection holds it, newest first; it
    never changes the backend, and rejects when the backend does not
    answer. *)
Theorem getSalesByDate_returns_the_range_newest_first :
  forall (businessId : string) (startDate endDate : Z) (fs : Firestore),
    snd (getSalesByDate businessId startDate endDate fs) = fs
    /\ (reachable fs = false ->
        fst (getSalesByDate businessId startDate endDate fs) = Rejected Backend_unavailable)
    /\ (reachable fs = true ->
        exists l,
          fst (getSalesByDate businessId startDate endDate fs) = Resolved l
          /\ Permutation l
               (filter (fun d => of_business businessId d
                                 && created_within startDate endDate d) (sales fs))
          /\ (forall d,
                In d l
                <-> In d (sales fs)
                    /\ SaleDoc.businessId d = businessId
                    /\ (startDate <= SaleDoc.createdAt d <= endDate)%Z)
          /\ Sorted (fun x y => (SaleDoc.createdAt y <= SaleDoc.createdAt x)%Z) l).
Proof.
  intros b s e fs. unfold getSalesByDate, getDocs_sales.
  destruct (reachable fs); (split; [reflexivity|]); split;
    try discriminate; try reflexivity.
  intros _. eexists. split; [reflexivity|].
  split; [apply newest_first_perm|]. split; [|apply newest_first_sorted].
  intros d. split.
  - intros Hd. apply (Permutation_in _ (newest_first_perm _)) in Hd.
    apply filter_In in Hd. destruct Hd as [Hin Hk].
    apply andb_true_iff in Hk. destruct Hk as [Hb Hw].
    unfold of_business in Hb. apply String.eqb_eq in Hb.
    unfold created_within in Hw. apply andb_true_iff in Hw.
    rewrite !Z.leb_le in Hw. tauto.
  - intros (Hin & Hb & Hs & He).
    apply (Permutation_in _ (Permutation_sym (newest_first_perm _))).
    apply filter_In. split; [exact Hin|].
    unfold of_business, created_within. rewrite Hb, String.eqb_refl.
    repeat (apply andb_true_iff; split); try apply Z.leb_le; auto.
Qed.

(** X17: a sale written by [addSale] is read back by [getAllSales] for its
    business, and for no other: after [addSale] resolves, the sales of the
    business are those of before plus the new document, and the sales of
    every other business are the list they were. *)
Theorem addSale_then_getAllSales :
  forall (saleData : Sale.t) (fs fs' : Firestore) (x : bool),
    addSale saleData fs = (Resolved x, fs') ->
    exists d before after,
      sales fs' = sales fs ++ [d]
      /\ getAllSales (Sale.businessId saleData) fs = (Resolved before, fs)
      /\ getAllSales (Sale.businessId saleData) fs' = (Resolved after, fs')
      /\ Permutation after (d :: before)
      /\ SaleDoc.items d = Sale.items saleData
      /\ (forall other, other <> Sale.businessId saleData ->
                        fst (getAllSales other fs') = fst (getAllSales other fs)).
Proof.
  intros s fs fs' x E. rewrite addSale_outcome in E.
  destruct (reachable fs) eqn:Hr; [|discriminate].
  destruct (lookup_business _ _) as [b|]; [|discriminate].
  injection E as _ <-.
  exists (saleDoc_of s (rraVatRate b) (clock fs)).
  unfold getAllSales, getDocs_sales. cbn [reachable with_sale with_sales sales].
  rewrite Hr. eexists _, _. split; [reflexivity|]. split; [reflexivity|].
  split; [reflexivity|]. split; [|split; [reflexivity|]].
  - rewrite filter_app. cbn [filter]. unfold of_business at 2.
    cbn [saleDoc_of SaleDoc.businessId]. rewrite String.eqb_refl.
    rewrite newest_first_perm, (newest_first_perm (filter _ (sales fs))).
    symmetry. apply Permutation_cons_append.
  - intros other Ho. cbn [fst]. rewrite filter_app. cbn [filter].
    unfold of_business at 2. cbn [saleDoc_of SaleDoc.businessId].
    assert (Hne : String.eqb (Sale.businessId s) other = false).
    { apply String.eqb_neq. congruence. }
    rewrite Hne, app_nil_r. reflexivity.
Qed.

Lemma addSale_then_getAllSales_witness :
  exists d before after,
    sales (snd (addSale (sale_of 50 "1001") backend)) = sales backend ++ [d]
    /\ getAllSales shop backend = (Resolved before, backend)
    /\ getAllSales shop (snd (addSale (sale_of 50 "1001") backend))
       = (Resolved after, snd (addSale (sale_of 50 "1001") backend))
    /\ Permutation after (d :: before).
Proof.
  destruct (addSale_then_getAllSales
              (sale_of 50 "1001") backend (snd (addSale (sale_of 50 "1001") backend))
              true eq_refl)
    as (d & before & after & H1 & H2 & H3 & H4 & _).
  exists d, before, after. repeat split; assumption.
Defined.

(* ================================================================== *)
(** * The weekly report and the error messages                          *)
(* ================================================================== *)

Section ReportFacts.

Lemma last_week_snoc b now l d :
  Functions.last_week b now (l ++ [d])
  = if of_business b d && created_within (now - Functions.week_ms) now d
    then Functions.last_week b now l ++ [d]
    else Functions.last_week b now l.
Proof.
  unfold Functions.last_week. rewrite filter_app. cbn [filter].
  destruct (of_business b d && created_within (now - Functions.week_ms) now d);
    [reflexivity | apply app_nil_r].
Qed.

End ReportFacts.

(** X19: a sale written by [addSale] is counted by [generateSalesReport]
    for its business from the moment it is written until seven days
    later, both ends included: the report then has one transaction more
    and its totals are those of before plus the total and the VAT of the
    document.  Asked for an earlier or a later moment, or for another
    business, the report is what it was. *)
Theorem generateSalesReport_counts_a_written_sale :
  forall (saleData : Sale.t) (fs fs' : Firestore) (x : bool) (now : Z),
    addSale saleData fs = (Resolved x, fs') ->
    Sale.businessId saleData <> "" ->
    exists d before after,
      sales fs' = sales fs ++ [d]
      /\ Functions.generateSalesReport (Some (Sale.businessId saleData)) now fs
         = Functions.Json before
      /\ Functions.generateSalesReport (Some (Sale.businessId saleData)) now fs'
         = Functions.Json after
      /\ Functions.grandTotal after = Functions.totalSales after
      /\ ((clock fs <= now <= clock fs + Functions.week_ms)%Z ->
          Functions.transactionCount after = S (Functions.transactionCount before)
          /\ Functions.totalSales after
             = Functions.totalSales before + Functions.or_zero (SaleDoc.total d)
          /\ Functions.totalVAT after
             = Functions.totalVAT before + Functions.or_zero (SaleDoc.vatAmount d))
      /\ ((now < clock fs \/ clock fs + Functions.week_ms < now)%Z -> after = before)
      /\ (forall other, other <> Sale.businessId saleData ->
                        Functions.generateSalesReport (Some other) now fs'
                        = Functions.generateSalesReport (Some other) now fs).
Proof.
  intros s fs fs' x now E Hb. rewrite addSale_outcome in E.
  destruct (reachable fs) eqn:Hr; [|discriminate].
  destruct (lookup_business _ _) as [b|]; [|discriminate].
  injection E as _ <-.
  set (d := saleDoc_of s (rraVatRate b) (clock fs)).
  assert (Ht : truthy (Some (Sale.businessId s)) = true).
  { cbn. apply negb_true_iff, String.eqb_neq. exact Hb. }
  unfold Functions.generateSalesReport. rewrite Ht. cbn [negb].
  cbn [reachable with_sale with_sales sales]. rewrite Hr.
  exists d. eexists _, _. split; [reflexivity|]. split; [reflexivity|].
  split; [reflexivity|]. split; [reflexivity|].
  cbn [Functions.transactionCount Functions.totalSales Functions.totalVAT].
  rewrite !last_week_snoc.
  assert (Hd : of_business (Sale.businessId s) d = true).
  { unfold of_business, d. cbn. apply String.eqb_refl. }
  assert (Hc : SaleDoc.createdAt d = clock fs) by reflexivity.
  split; [|split].
  - intros [H1 H2]. rewrite Hd. unfold created_within. rewrite Hc.
    replace (now - Functions.week_ms <=? clock fs)%Z with true
      by (symmetry; apply Z.leb_le; lia).
    replace (clock fs <=? now)%Z with true by (symmetry; apply Z.leb_le; lia).
    cbn [andb]. rewrite !fold_left_app. cbn [fold_left]. repeat split.
  - intros Hout. unfold created_within. rewrite Hc.
    replace ((now - Functions.week_ms <=? clock fs)%Z && (clock fs <=? now)%Z) with false.
    + rewrite andb_false_r. reflexivity.
    + symmetry. apply andb_false_iff. rewrite !Z.leb_gt. lia.
  - intros other Ho.
    destruct (negb (truthy (Some other))); [reflexivity|].
    rewrite last_week_snoc.
    assert (Hne : of_business other d = false).
    { unfold of_business, d. cbn. apply String.eqb_neq. congruence. }
    rewrite Hne. reflexivity.
Qed.

Lemma generateSalesReport_counts_a_written_sale_witness :
  exists d before after,
    sales (snd (addSale (sale_of 50 "1001") backend)) = sales backend ++ [d]
    /\ Functions.generateSalesReport (Some shop) Functions.week_ms backend
       = Functions.Json before
    /\ Functions.generateSalesReport (Some shop) Functions.week_ms
                                     (snd (addSale (sale_of 50 "1001") backend))
       = Functions.Json after
    /\ Functions.transactionCount after = S (Functions.transactionCount before)
    /\ Functions.totalVAT after
       = Functions.totalVAT before + Functions.or_zero (SaleDoc.vatAmount d).
Proof.
  destruct (generateSalesReport_counts_a_written_sale
              (sale_of 50 "1001") backend (snd (addSale (sale_of 50 "1001") backend))
              true Functions.week_ms eq_refl)
    as (d & before & after & H1 & H2 & H3 & _ & Hin & _).
  { discriminate. }
  destruct Hin as (Hc & _ & Hv).
  { split; discriminate. }
  exists d, before, after. repeat split; assumption.
Defined.

(** X20: [getErrorMessage] never gives an empty message: for every error,
    whatever its code and message, absent or empty, the text returned is
    not empty; and for the six codes it knows the text does not depend on
    the message of the error. *)
Theorem getErrorMessage_is_never_empty :
  forall (error : Auth.FirebaseError),
    Auth.getErrorMessage error <> ""
    /\ (forall m,
          In (Auth.code error)
             [Some "auth/email-already-in-use"; Some "auth/invalid-email";
              Some "auth/weak-password"; Some "auth/user-not-found";
              Some "auth/wrong-password"; Some "auth/too-many-requests"] ->
          Auth.getErrorMessage {| Auth.code := Auth.code error; Auth.message := m |}
          = Auth.getErrorMessage error).
Proof.
  intros [c m].
  assert (Hor : forall (s : option string) (fallback : string),
                  fallback <> "" -> Auth.or_else s fallback <> "").
  { intros s fb Hfb. unfold Auth.or_else. destruct s as [t|]; [|exact Hfb].
    destruct (String.eqb t "") eqn:E; [exact Hfb|]. apply String.eqb_neq. exact E. }
  split.
  - unfold Auth.getErrorMessage. cbn [Auth.code Auth.message].
    destruct (negb (truthy c)); [apply Hor; discriminate|].
    destruct c as [c|]; [|apply Hor; discriminate].
    repeat match goal with
           | |- (if ?b then _ else _) <> _ => destruct b; [discriminate|]
           end.
    apply Hor. discriminate.
  - intros m' Hin. cbn [Auth.code] in *.
    repeat (destruct Hin as [<- | Hin]; [reflexivity|]). destruct Hin.
Qed.

(* ================================================================== *)
(** * Invitations                                                       *)
(* ================================================================== *)

Section InvitationFacts.

Import Invitations.

Lemma doc_get_update_same {A} (k : string) (f : A -> A) (l : list (string * A)) :
  doc_get k (doc_update k f l) = option_map f (doc_get k l).
Proof.
  induction l as [|[k' v] l IH]; [reflexivity|]. simpl.
  destruct (String.eqb k' k) eqn:E; simpl; rewrite E; [reflexivity | exact IH].
Qed.

Lemma doc_get_update_other {A} (k k' : string) (f : A -> A) (l : list (string * A)) :
  k' <> k -> doc_get k' (doc_update k f l) = doc_get k' l.
Proof.
  intros Hk. induction l as [|[k0 v] l IH]; [reflexivity|]. simpl.
  destruct (String.eqb k0 k) eqn:E; simpl.
  - apply String.eqb_eq in E. subst k0.
    assert (E' : String.eqb k k' = false) by (apply String.eqb_neq; congruence).
    rewrite E'. reflexivity.
  - destruct (String.eqb k0 k'); [reflexivity | exact IH].
Qed.

Lemma doc_update_ids {A} (k : string) (f : A -> A) (l : list (string * A)) :
  map fst (doc_update k f l) = map fst l.
Proof.
  induction l as [|[k' v] l IH]; [reflexivity|]. simpl.
  destruct (String.eqb k' k); simpl; [reflexivity | rewrite IH; reflexivity].
Qed.

Lemma doc_get_In {A} (k : string) (v : A) (l : list (string * A)) :
  ids_unique l -> In (k, v) l -> doc_get k l = Some v.
Proof.
  unfold ids_unique. induction l as [|[k' v'] l IH]; simpl; [tauto|].
  intros Hnd [Heq | Hin].
  - injection Heq as -> ->. rewrite String.eqb_refl. reflexivity.
  - inversion Hnd as [|? ? Hnotin Hnd']; subst.
    destruct (String.eqb k' k) eqn:E.
    + apply String.eqb_eq in E. subst k'. exfalso. apply Hnotin.
      apply (in_map fst) in Hin. exact Hin.
    + apply IH; assumption.
Qed.

Lemma arrayUnion_In (x : string) (l : list string) : In x (arrayUnion x l).
Proof.
  unfold arrayUnion. destruct (existsb (String.eqb x) l) eqn:E.
  - apply existsb_eqb_In. exact E.
  - apply in_or_app. right. left. reflexivity.
Qed.

Lemma arrayUnion_NoDup (x : string) (l : list string) : NoDup l -> NoDup (arrayUnion x l).
Proof.
  intros Hl. unfold arrayUnion. destruct (existsb (String.eqb x) l) eqn:E; [exact Hl|].
  apply NoDup_app; [exact Hl | repeat constructor; tauto|].
  intros y Hy [<-|[]].
  apply existsb_eqb_In in Hy. congruence.
Qed.

Lemma arrayRemove_arrayUnion (x : string) (l : list string) :
  ~ In x l -> arrayRemove x (arrayUnion x l) = l.
Proof.
  intros Hx. unfold arrayUnion.
  assert (E : existsb (String.eqb x) l = false).
  { destruct (existsb (String.eqb x) l) eqn:E; [|reflexivity].
    apply existsb_eqb_In in E. contradiction. }
  rewrite E. unfold arrayRemove. rewrite filter_app. cbn [filter].
  rewrite String.eqb_refl. cbn [negb]. rewrite app_nil_r.
  apply forallb_filter_id. apply forallb_forall. intros y Hy.
  apply negb_true_iff, String.eqb_neq. intros ->. contradiction.
Qed.

Lemma find_doc_add {A} (keep : string * A -> bool) (place : nat) (k : string) (v : A)
      (l : list (string * A)) :
  find keep l = None -> keep (k, v) = true ->
  find keep (doc_add place k v l) = Some (k, v).
Proof.
  intros Hnone Hk. unfold doc_add.
  assert (Hf : find keep (firstn place l) = None).
  { destruct (find keep (firstn place l)) as [x|] eqn:E; [|reflexivity].
    apply find_some in E. destruct E as [Hin Hx].
    pose proof (find_none _ _ Hnone x) as Hn.
    rewrite Hn in Hx; [discriminate|].
    rewrite <- (firstn_skipn place l). apply in_or_app. left. exact Hin. }
  revert Hf. generalize (firstn place l). intros l1.
  induction l1 as [|y l1 IH]; simpl.
  - intros _. rewrite Hk. reflexivity.
  - destruct (keep y); [discriminate | exact IH].
Qed.

Lemma option_map_doc_get_has {A} (k : string) (l : list (string * A)) :
  has_doc k l = true -> exists v, doc_get k l = Some v.
Proof.
  unfold has_doc. destruct (doc_get k l) as [v|]; [eauto | discriminate].
Qed.

End InvitationFacts.

(** X21: an invitation is accepted once.  After [acceptInvitation] has
    resolved for an invitation, a second call for it, by any user, fails
    with 'Invitation already used or expired' and changes nothing, and
    (with one document per identifier) [getInvitationByToken] no longer
    finds that invitation under any token. *)
Theorem acceptInvitation_only_once :
  forall (invitationId userId : string) (db db1 : Invitations.Db) (b : string),
    Invitations.ids_unique (Invitations.invitations db) ->
    Invitations.acceptInvitation invitationId userId db = (Invitations.Ok b, db1) ->
    (forall other,
        Invitations.acceptInvitation invitationId other db1
        = (Invitations.Failed Invitations.Invitation_already_used_or_expired, db1))
    /\ (forall tok k i,
          fst (Invitations.getInvitationByToken tok db1) = Invitations.Ok (Some (k, i)) ->
          k <> invitationId).
Proof.
  intros inv u db db1 b Hu. unfold Invitations.acceptInvitation.
  destruct (Invitations.answering db) eqn:Ha; [|discriminate]. cbn [negb].
  destruct (Invitations.doc_get inv (Invitations.invitations db)) as [i|] eqn:Hi;
    [|discriminate].
  destruct (String.eqb (Invitations.status i) "pending") eqn:Hp; [|discriminate].
  cbn [negb].
  destruct (Invitations.has_doc u (Invitations.users db)
            && Invitations.has_doc (Invitations.businessId i) (Invitations.salesRepIds db));
    [|discriminate].
  intros E. injection E as <- <-. split.
  - intros other. cbn [Invitations.answering Invitations.invitations negb]. rewrite doc_get_update_same, Hi. cbn [option_map Invitations.status].
    reflexivity.
  - intros tok k i' Hfind. unfold Invitations.getInvitationByToken in Hfind.
    cbn [Invitations.answering Invitations.invitations fst] in Hfind. injection Hfind as Hfind.
    apply find_some in Hfind. destruct Hfind as [Hin Hk]. cbn [snd] in Hk.
    apply andb_true_iff in Hk. destruct Hk as [_ Hst]. apply String.eqb_eq in Hst.
    intros ->.
    assert (Hu1 : Invitations.ids_unique
                    (Invitations.doc_update inv
                       (fun i0 => {| Invitations.businessId := Invitations.businessId i0;
                                     Invitations.email := Invitations.email i0;
                                     Invitations.invitedBy := Invitations.invitedBy i0;
                                     Invitations.token := Invitations.token i0;
                                     Invitations.status := "accepted";
                                     Invitations.createdAt := Invitations.createdAt i0;
                                     Invitations.acceptedAt := Some (Invitations.time db);
                                     Invitations.acceptedBy := Some u |})
                       (Invitations.invitations db))).
    { unfold Invitations.ids_unique. rewrite doc_update_ids. exact Hu. }
    pose proof (doc_get_In _ _ _ Hu1 Hin) as Hget.
    rewrite doc_get_update_same, Hi in Hget. cbn [option_map] in Hget.
    injection Hget as <-. cbn [Invitations.status] in Hst. discriminate.
Qed.

Lemma acceptInvitation_only_once_witness :
  fst (Invitations.acceptInvitation "inv-1" "user-2" Invitations.example)
  = Invitations.Ok "biz-1"
  /\ fst (Invitations.acceptInvitation
            "inv-1" "user-3"
            (snd (Invitations.acceptInvitation "inv-1" "user-2" Invitations.example)))
     = Invitations.Failed Invitations.Invitation_already_used_or_expired.
Proof.
  split; [reflexivity|].
  assert (Hu : Invitations.ids_unique (Invitations.invitations Invitations.example)).
  { unfold Invitations.ids_unique. cbn. repeat constructor. tauto. }
  destruct (acceptInvitation_only_once
              "inv-1" "user-2" Invitations.example
              (snd (Invitations.acceptInvitation "inv-1" "user-2" Invitations.example))
              "biz-1" Hu eq_refl) as [H _].
  rewrite (H "user-3"). reflexivity.
Defined.

(** X22: [acceptInvitation] links the user and nothing else.  When it
    resolves, it resolves with the business of the invitation; the user
    document has that business and the role 'representative', its email
    and name untouched; the sales representatives of the business contain
    the user, without a duplicate if there was none; every other user and
    every other business is as before.  When it fails, nothing is
    written. *)
Theorem acceptInvitation_links_the_user :
  forall (invitationId userId : string) (db : Invitations.Db),
    (forall f db',
        Invitations.acceptInvitation invitationId userId db = (Invitations.Failed f, db') ->
        db' = db)
    /\ (forall b db',
          Invitations.acceptInvitation invitationId userId db = (Invitations.Ok b, db') ->
          exists i u reps,
            Invitations.doc_get invitationId (Invitations.invitations db) = Some i
            /\ Invitations.status i = "pending"
            /\ b = Invitations.businessId i
            /\ Invitations.doc_get userId (Invitations.users db) = Some u
            /\ Invitations.doc_get userId (Invitations.users db')
               = Some {| Invitations.user_email := Invitations.user_email u;
                         Invitations.user_name := Invitations.user_name u;
                         Invitations.user_businessId := Some b;
                         Invitations.user_role := Some "representative" |}
            /\ Invitations.doc_get b (Invitations.salesRepIds db) = Some reps
            /\ Invitations.doc_get b (Invitations.salesRepIds db')
               = Some (Invitations.arrayUnion userId reps)
            /\ In userId (Invitations.arrayUnion userId reps)
            /\ (NoDup reps -> NoDup (Invitations.arrayUnion userId reps))
            /\ (forall k, k <> userId ->
                          Invitations.doc_get k (Invitations.users db')
                          = Invitations.doc_get k (Invitations.users db))
            /\ (forall k, k <> b ->
                          Invitations.doc_get k (Invitations.salesRepIds db')
                          = Invitations.doc_get k (Invitations.salesRepIds db))
            /\ (forall k, k <> invitationId ->
                          Invitations.doc_get k (Invitations.invitations db')
                          = Invitations.doc_get k (Invitations.invitations db))).
Proof.
  intros inv u db. unfold Invitations.acceptInvitation.
  destruct (Invitations.answering db); cbn [negb];
    [|split; intros ? ? E; [injection E as _ <-; reflexivity | discriminate]].
  destruct (Invitations.doc_get inv (Invitations.invitations db)) as [i|] eqn:Hi;
    [|split; intros ? ? E; [injection E as _ <-; reflexivity | discriminate]].
  destruct (String.eqb (Invitations.status i) "pending") eqn:Hp; cbn [negb];
    [|split; intros ? ? E; [injection E as _ <-; reflexivity | discriminate]].
  destruct (Invitations.has_doc u (Invitations.users db)) eqn:Hud; cbn [andb];
    [|split; intros ? ? E; [injection E as _ <-; reflexivity | discriminate]].
  destruct (Invitations.has_doc (Invitations.businessId i) (Invitations.salesRepIds db))
    eqn:Hbd;
    [|split; intros ? ? E; [injection E as _ <-; reflexivity | discriminate]].
  split; [intros ? ? E; discriminate|].
  intros b db' E. injection E as <- <-.
  destruct (option_map_doc_get_has _ _ Hud) as (ud & Hu).
  destruct (option_map_doc_get_has _ _ Hbd) as (reps & Hr).
  exists i, ud, reps.
  cbn [Invitations.users Invitations.salesRepIds Invitations.invitations].
  split; [reflexivity|]. split; [apply String.eqb_eq, Hp|]. split; [reflexivity|].
  split; [exact Hu|]. split; [rewrite doc_get_update_same, Hu; reflexivity|].
  split; [exact Hr|]. split; [rewrite doc_get_update_same, Hr; reflexivity|].
  split; [apply arrayUnion_In|]. split; [apply arrayUnion_NoDup|].
  split; [|split]; intros k Hk; apply doc_get_update_other; exact Hk.
Qed.

(** X23: an invitation just created is found by its token.  On a backend
    that answers, when no pending invitation has the new token,
    [getInvitationByToken] after [createInvitation] gives the new
    invitation: pending, for the business given, with the email in lower
    case and trimmed. *)
Theorem createInvitation_then_getInvitationByToken :
  forall (businessId email invitedBy new_token new_id : string) (place : nat)
         (db : Invitations.Db),
    Invitations.answering db = true ->
    fst (Invitations.getInvitationByToken new_token db) = Invitations.Ok None ->
    exists db1 i,
      Invitations.createInvitation businessId email invitedBy new_token new_id place db
      = (Invitations.Ok (new_id, new_token), db1)
      /\ Invitations.getInvitationByToken new_token db1
         = (Invitations.Ok (Some (new_id, i)), db1)
      /\ Invitations.status i = "pending"
      /\ Invitations.businessId i = businessId
      /\ Invitations.email i = trim (Invitations.toLowerCase email)
      /\ Invitations.token i = new_token
      /\ Invitations.users db1 = Invitations.users db
      /\ Invitations.salesRepIds db1 = Invitations.salesRepIds db.
Proof.
  intros b e by_ tok nid place db Ha Hnone.
  unfold Invitations.getInvitationByToken in Hnone. rewrite Ha in Hnone.
  cbn [fst] in Hnone. injection Hnone as Hnone.
  unfold Invitations.createInvitation. rewrite Ha.
  eexists _, _. split; [reflexivity|].
  unfold Invitations.getInvitationByToken.
  cbn [Invitations.answering Invitations.invitations].
  split.
  - f_equal. f_equal. apply find_doc_add; [exact Hnone|].
    cbn [snd Invitations.token Invitations.status].
    rewrite String.eqb_refl. reflexivity.
  - repeat split.
Qed.

Lemma createInvitation_then_getInvitationByToken_witness :
  exists db1 i,
    Invitations.createInvitation "biz-1" "  New.Rep@Shop.RW " "user-1" "1700000000001-xyz"
                                 "inv-0" 0 Invitations.example
    = (Invitations.Ok ("inv-0", "1700000000001-xyz"), db1)
    /\ Invitations.getInvitationByToken "1700000000001-xyz" db1
       = (Invitations.Ok (Some ("inv-0", i)), db1)
    /\ Invitations.email i = "new.rep@shop.rw".
Proof.
  destruct (createInvitation_then_getInvitationByToken
              "biz-1" "  New.Rep@Shop.RW " "user-1" "1700000000001-xyz" "inv-0" 0
              Invitations.example eq_refl eq_refl)
    as (db1 & i & E1 & E2 & _ & _ & He & _).
  exists db1, i. split; [exact E1|]. split; [exact E2|]. rewrite He. reflexivity.
Defined.

(** X24: [removeSalesRep] undoes the link an accepted invitation made, and
    not the invitation.  After [acceptInvitation] resolved for a user who
    was not among the sales representatives, [removeSalesRep] for that
    business and user resolves; the representatives of the business are
    those of before the acceptance, the user document has no business and
    no role, and the invitation stays accepted. *)
Theorem removeSalesRep_after_acceptInvitation :
  forall (invitationId userId b : string) (db db1 : Invitations.Db) (reps : list string),
    Invitations.acceptInvitation invitationId userId db = (Invitations.Ok b, db1) ->
    Invitations.doc_get b (Invitations.salesRepIds db) = Some reps ->
    ~ In userId reps ->
    exists db2 u,
      Invitations.removeSalesRep b userId db1 = (Invitations.Ok true, db2)
      /\ Invitations.doc_get b (Invitations.salesRepIds db2) = Some reps
      /\ Invitations.doc_get userId (Invitations.users db) = Some u
      /\ Invitations.doc_get userId (Invitations.users db2)
         = Some {| Invitations.user_email := Invitations.user_email u;
                   Invitations.user_name := Invitations.user_name u;
                   Invitations.user_businessId := None;
                   Invitations.user_role := None |}
      /\ Invitations.invitations db2 = Invitations.invitations db1
      /\ option_map Invitations.status
                    (Invitations.doc_get invitationId (Invitations.invitations db2))
         = Some "accepted".
Proof.
  intros inv u b db db1 reps. unfold Invitations.acceptInvitation.
  destruct (Invitations.answering db) eqn:Ha; [|discriminate]. cbn [negb].
  destruct (Invitations.doc_get inv (Invitations.invitations db)) as [i|] eqn:Hi;
    [|discriminate].
  destruct (String.eqb (Invitations.status i) "pending") eqn:Hp; [|discriminate].
  cbn [negb].
  destruct (Invitations.has_doc u (Invitations.users db)) eqn:Hud; [|discriminate].
  cbn [andb].
  destruct (Invitations.has_doc (Invitations.businessId i) (Invitations.salesRepIds db))
    eqn:Hbd; [|discriminate].
  intros E Hreps Hnot. injection E as <- <-.
  destruct (option_map_doc_get_has _ _ Hud) as (ud & Hu).
  unfold Invitations.removeSalesRep.
  cbn [Invitations.answering Invitations.salesRepIds Invitations.users
       Invitations.invitations negb].
  unfold Invitations.has_doc. rewrite !doc_get_update_same, Hreps, Hu.
  cbn [option_map andb].
  eexists _, ud. split; [reflexivity|].
  cbn [Invitations.salesRepIds Invitations.users Invitations.invitations].
  rewrite !doc_get_update_same, Hreps, Hu, Hi. cbn [option_map Invitations.status].
  split; [rewrite arrayRemove_arrayUnion by exact Hnot; reflexivity|].
  split; [reflexivity|]. split; [reflexivity|]. split; reflexivity.
Qed.

Lemma removeSalesRep_after_acceptInvitation_witness :
  exists db2,
    Invitations.removeSalesRep
      "biz-1" "user-2"
      (snd (Invitations.acceptInvitation "inv-1" "user-2" Invitations.example))
    = (Invitations.Ok true, db2)
    /\ Invitations.doc_get "biz-1" (Invitations.salesRepIds db2) = Some [].
Proof.
  destruct (removeSalesRep_after_acceptInvitation
              "inv-1" "user-2" "biz-1" Invitations.example
              (snd (Invitations.acceptInvitation "inv-1" "user-2" Invitations.example))
              [] eq_refl eq_refl (fun H => H))
    as (db2 & u & E & Hr & _).
  exists db2. split; [exact E | exact Hr].
Defined.
